(** * aimaker: a verified model of the generation pipeline

    The development follows the three source modules:
    - [utils.py]  : [extract_substring], [extract_single_function_name];
    - [client.py] : [OpenAIWrapper.complete];
    - [main.py]   : [PythonFileScript], [PythonPackage].

    Python strings are [string]; integers are [Z]; [None]-or-value results
    are [option]; exceptions are an explicit [result] type; the file system,
    the loggers and the model provider are threaded as explicit state. *)

From Stdlib Require Import ZArith Ascii String QArith.
From stdpp Require Import gmap strings list.

Set Warnings "-register-all".
Local Open Scope Z_scope.

(** ** Python strings *)

Module PyStr.

Definition len (s : string) : Z := Z.of_nat (String.length s).

Definition nl : string := String (ascii_of_nat 10) EmptyString.

Fixpoint drop_str (n : nat) (s : string) : string :=
  match n, s with
  | O, _ => s
  | S n', String _ s' => drop_str n' s'
  | S _, EmptyString => EmptyString
  end.

Fixpoint take_str (n : nat) (s : string) : string :=
  match n, s with
  | O, _ => EmptyString
  | S n', String c s' => String c (take_str n' s')
  | S _, EmptyString => EmptyString
  end.

(** [find_from sub s i] scans [s], whose first character has index [i] in
    the enclosing string, for the lowest position at which [sub] starts;
    [-1] when there is none (the result convention of [str.find]). *)
Fixpoint find_from (sub s : string) (i : Z) : Z :=
  if String.prefix sub s then i
  else match s with
       | EmptyString => -1
       | String _ s' => find_from sub s' (i + 1)
       end.

(** [s.find(sub, start)]: a negative [start] counts from the end (clamped
    at 0); a [start] beyond the end finds nothing, not even the empty
    string. *)
Definition find (s sub : string) (start : Z) : Z :=
  let n := len s in
  let start := if start <? 0 then Z.max 0 (start + n) else start in
  if n <? start then -1
  else find_from sub (drop_str (Z.to_nat start) s) start.

(** Normalisation of one bound of a slice [s[a:b]]. *)
Definition slice_index (n i : Z) : Z :=
  if i <? 0 then Z.max 0 (i + n) else Z.min i n.

(** [s[start:stop]] *)
Definition slice (s : string) (start stop : Z) : string :=
  let n := len s in
  let a := slice_index n start in
  let b := slice_index n stop in
  take_str (Z.to_nat (b - a)) (drop_str (Z.to_nat a) s).

End PyStr.

(** ** Occurrences of a marker in a text (specification side) *)

Module Occ.

(** [sub] occurs in [s] at offset [i]. *)
Definition occurs_at (sub s : string) (i : nat) : Prop :=
  ∃ pre post, s = pre +:+ sub +:+ post ∧ String.length pre = i.

(** [i] is the first offset not below [k] at which [sub] occurs in [s]. *)
Definition first_from (sub s : string) (k i : nat) : Prop :=
  (k ≤ i)%nat ∧ occurs_at sub s i ∧
  ∀ j, (k ≤ j)%nat → (j < i)%nat → ¬ occurs_at sub s j.

(** The same two, as checks that run. *)
Definition occurs_atb (sub s : string) (i : nat) : bool :=
  (i <=? String.length s)%nat && String.prefix sub (PyStr.drop_str i s).

Definition first_fromb (sub s : string) (k i : nat) : bool :=
  (k <=? i)%nat && occurs_atb sub s i
  && forallb (λ j, negb (occurs_atb sub s j)) (seq k (i - k)).

End Occ.

(** ** Exceptions *)

Inductive exn_class :=
| SyntaxError | ValueError | APIError
| FileNotFoundError | FileExistsError | NotADirectoryError
| IsADirectoryError | OSError
| KeyboardInterrupt.

(** An exception object: its class and the text [str(e)] gives. *)
Record exn := Exn { exn_cls : exn_class; exn_str : string }.

(** [isinstance(e, Exception)]: everything above derives from [Exception]
    except [KeyboardInterrupt], which derives from [BaseException] only. *)
Definition is_Exception (e : exn) : bool :=
  match exn_cls e with
  | KeyboardInterrupt => false
  | _ => true
  end.

Inductive result (A : Type) :=
| Ok (a : A)
| Raise (e : exn).
Arguments Ok {A} a.
Arguments Raise {A} e.

(** ** The syntax trees handed out by [ast.parse]

    Only the node class decides how [ast.NodeVisitor.visit] dispatches, so
    a node keeps its class, its [name] where the class has one, and its
    child nodes in the order [ast.iter_child_nodes] yields them. *)

Inductive ast :=
| FunctionDef (name : string) (children : list ast)
| AsyncFunctionDef (name : string) (children : list ast)
| ClassDef (name : string) (children : list ast)
| OtherNode (cls : string) (children : list ast).

(** ** The file tree *)

Inductive node :=
| File (content : string)
| Dir (entries : gmap string node).

Inductive level := INFO | ERROR.

Record struct_time := {
  tm_year : nat; tm_mon : nat; tm_mday : nat;
  tm_hour : nat; tm_min : nat; tm_sec : nat }.

(** Everything outside the interpreter that the program reads or changes. *)
Record World := {
  main_log : list (level * string);    (* calls on logging.getLogger(__name__) *)
  openai_log : list (level * string);  (* calls on the 'OpenAIWrapper' logger *)
  api_calls : nat;                     (* completion requests sent so far *)
  cwd : list string;                   (* working directory, as components *)
  root : node;                         (* the file tree *)
  now : struct_time }.                 (* time.localtime() *)

Definition set_main_log (f : list (level * string) → list (level * string)) (w : World) : World :=
  {| main_log := f (main_log w); openai_log := openai_log w; api_calls := api_calls w;
     cwd := cwd w; root := root w; now := now w |}.
Definition set_openai_log (f : list (level * string) → list (level * string)) (w : World) : World :=
  {| main_log := main_log w; openai_log := f (openai_log w); api_calls := api_calls w;
     cwd := cwd w; root := root w; now := now w |}.
Definition set_api_calls (f : nat → nat) (w : World) : World :=
  {| main_log := main_log w; openai_log := openai_log w; api_calls := f (api_calls w);
     cwd := cwd w; root := root w; now := now w |}.
(** The world after the given calls on the module logger. *)
Definition log_main (entries : list (level * string)) (w : World) : World :=
  set_main_log (λ l, l ++ entries) w.
Definition set_root (r : node) (w : World) : World :=
  {| main_log := main_log w; openai_log := openai_log w; api_calls := api_calls w;
     cwd := cwd w; root := r; now := now w |}.

(** ** Computations: state plus exceptions

    A computation over a state [S] returns a value or raises, and in both
    cases hands back the state it reached: what was done before a [raise]
    stays done. *)

Definition M (S A : Type) : Type := S → result A * S.

Definition ret {S A} (a : A) : M S A := λ s, (Ok a, s).
Definition raise {S A} (e : exn) : M S A := λ s, (Raise e, s).
Definition bind {S A B} (m : M S A) (k : A → M S B) : M S B :=
  λ s, match m s with
       | (Ok a, s') => k a s'
       | (Raise e, s') => (Raise e, s')
       end.
Definition get {S} : M S S := λ s, (Ok s, s).
Definition modify {S} (f : S → S) : M S unit := λ s, (Ok tt, f s).
Definition of_result {S A} (r : result A) : M S A := λ s, (r, s).

(** [try: m  except Exception as e: h e] *)
Definition try_except {S A} (m : M S A) (h : exn → M S A) : M S A :=
  λ s, match m s with
       | (Ok a, s') => (Ok a, s')
       | (Raise e, s') => if is_Exception e then h e s' else (Raise e, s')
       end.

Declare Scope py_scope.
Delimit Scope py_scope with py.
Notation "x <- m ;; k" := (bind m (λ x, k))
  (at level 100, m at next level, right associativity) : py_scope.
Notation "m ;;; k" := (bind m (λ _, k))
  (at level 100, right associativity) : py_scope.

(** [for x in l: body x] *)
Fixpoint for_each {S A} (l : list A) (body : A → M S unit) : M S unit :=
  match l with
  | [] => ret tt
  | x :: l' => bind (body x) (λ _, for_each l' body)
  end.

(** A method of an object of class [Self]: the state is the object
    together with the world. *)
Definition Method (Self A : Type) : Type := M (Self * World) A.

Definition self_ {Self} : Method Self Self := λ s, (Ok (fst s), s).
Definition set_self {Self} (f : Self → Self) : Method Self unit :=
  λ s, (Ok tt, (f (fst s), snd s)).
(** Run a world-only computation from inside a method. *)
Definition io {Self A} (m : M World A) : Method Self A :=
  λ s, let '(r, w) := m (snd s) in (r, (fst s, w)).
(** [obj.method(...)] on another object; yields the object as the call
    left it together with the method's result. *)
Definition call {Self Obj A} (obj : Obj) (m : Method Obj A) : Method Self (A * Obj) :=
  λ s, match m (obj, snd s) with
       | (Ok a, (obj', w)) => (Ok (a, obj'), (fst s, w))
       | (Raise e, (_, w)) => (Raise e, (fst s, w))
       end.

(** ** The operating system: paths *)

Module os_path.

Definition is_sep (c : ascii) : bool := Ascii.eqb c "/".

Definition startswith_sep (s : string) : bool :=
  match s with
  | String c _ => is_sep c
  | EmptyString => false
  end.

Fixpoint endswith_sep (s : string) : bool :=
  match s with
  | EmptyString => false
  | String c EmptyString => is_sep c
  | String _ s' => endswith_sep s'
  end.

Definition is_empty (s : string) : bool :=
  match s with EmptyString => true | _ => false end.

(** One round of the loop of [posixpath.join]. *)
Definition join2 (path b : string) : string :=
  if startswith_sep b then b
  else if is_empty path || endswith_sep path then path +:+ b
  else path +:+ "/" +:+ b.

(** [os.path.join(a, *p)] *)
Definition join (a : string) (p : list string) : string := fold_left join2 p a.

(** [s.split("/")] *)
Fixpoint split_sep (s : string) : list string :=
  match s with
  | EmptyString => [EmptyString]
  | String c s' =>
      if is_sep c then EmptyString :: split_sep s'
      else match split_sep s' with
           | h :: t => String c h :: t
           | [] => [String c EmptyString]
           end
  end.

(** Components that name something: not empty and not ".". *)
Definition names_entry (c : string) : bool :=
  negb (is_empty c) && negb (String.eqb c ".").

(** How the kernel reads a path name, as far as this model goes: the empty
    path names nothing; a path with a ".." component is outside the model
    (also reported as naming nothing); otherwise the named components,
    below the root for an absolute path and below [cwd] for a relative
    one.  There are no symbolic links. *)
Definition resolve (cwd : list string) (s : string) : option (list string) :=
  if is_empty s then None
  else
    let pieces := List.filter names_entry (split_sep s) in
    if existsb (String.eqb "..") pieces then None
    else Some ((if startswith_sep s then [] else cwd) ++ pieces).

Fixpoint has_sep (s : string) : bool :=
  match s with
  | EmptyString => false
  | String c s' => is_sep c || has_sep s'
  end.

(** No character is a separator or a dot. *)
Fixpoint all_tame (s : string) : bool :=
  match s with
  | EmptyString => true
  | String c s' => negb (is_sep c) && negb (Ascii.eqb c ".") && all_tame s'
  end.

(** A plain entry name: one component, naming an entry. *)
Definition plain_name (n : string) : bool :=
  match split_sep n with
  | [c] => names_entry c && negb (String.eqb c "..")
  | _ => false
  end.

End os_path.

(** ** The operating system: the tree *)

Module fstree.

Fixpoint lookup_node (p : list string) (n : node) : option node :=
  match p with
  | [] => Some n
  | c :: p' =>
      match n with
      | Dir m => match m !! c with
                 | Some ch => lookup_node p' ch
                 | None => None
                 end
      | File _ => None
      end
  end.

(** Put [v] at [p] ([None] removes the entry).  The directory holding the
    entry must exist; otherwise, and at the root, nothing changes. *)
Fixpoint set_at (p : list string) (v : option node) (n : node) : node :=
  match p with
  | [] => n
  | c :: p' =>
      match n with
      | File _ => n
      | Dir m =>
          match p' with
          | [] => Dir (match v with
                       | Some x => <[c := x]> m
                       | None => delete c m
                       end)
          | _ :: _ => match m !! c with
                      | Some ch => Dir (<[c := set_at p' v ch]> m)
                      | None => n
                      end
          end
      end
  end.

(** Create the directories missing along [p]; [None] when a regular file
    is in the way. *)
Fixpoint mkdirs (p : list string) (n : node) : option node :=
  match p with
  | [] => match n with Dir _ => Some n | File _ => None end
  | c :: p' =>
      match n with
      | File _ => None
      | Dir m =>
          match mkdirs p' (default (Dir ∅) (m !! c)) with
          | Some ch => Some (Dir (<[c := ch]> m))
          | None => None
          end
      end
  end.

Fixpoint split_last (p : list string) : option (list string * string) :=
  match p with
  | [] => None
  | [c] => Some ([], c)
  | c :: p' => match split_last p' with
               | Some (d, x) => Some (c :: d, x)
               | None => None
               end
  end.

(** Neither place lies at or below the other. *)
Definition unrelated (p q : list string) : Prop :=
  ¬ p `prefix_of` q ∧ ¬ q `prefix_of` p.

Definition is_dir (p : list string) (n : node) : bool :=
  match lookup_node p n with
  | Some (Dir _) => true
  | _ => false
  end.

Definition read_file (p : list string) (n : node) : option string :=
  match lookup_node p n with
  | Some (File c) => Some c
  | _ => None
  end.

End fstree.

(** ** The operating system: calls *)

Module os.
Import os_path fstree.

Definition err {A} (c : exn_class) (path : string) : M World A :=
  raise (Exn c path).

(** [os.makedirs(name, exist_ok=...)] *)
Definition makedirs (name : string) (exist_ok : bool) : M World unit :=
  λ w, match resolve (cwd w) name with
       | None => err FileNotFoundError name w
       | Some p =>
           match lookup_node p (root w) with
           | Some (Dir _) => if exist_ok then (Ok tt, w) else err FileExistsError name w
           | Some (File _) => err FileExistsError name w
           | None => match mkdirs p (root w) with
                     | Some r => (Ok tt, set_root r w)
                     | None => err NotADirectoryError name w
                     end
           end
       end.

(** [os.listdir(path)]; the order is the one the map enumerates. *)
Definition listdir (path : string) : M World (list string) :=
  λ w, match resolve (cwd w) path with
       | None => err FileNotFoundError path w
       | Some p =>
           match lookup_node p (root w) with
           | Some (Dir m) => (Ok (map fst (map_to_list m)), w)
           | Some (File _) => err NotADirectoryError path w
           | None => err FileNotFoundError path w
           end
       end.

(** Whether an entry [n] may replace what is at the target of a rename. *)
Definition may_replace (n : node) (target : option node) : option exn_class :=
  match target, n with
  | None, _ => None
  | Some (File _), File _ => None
  | Some (File _), Dir _ => Some NotADirectoryError
  | Some (Dir _), File _ => Some IsADirectoryError
  | Some (Dir m), Dir _ => if decide (m = ∅) then None else Some OSError
  end.

(** [os.rename(src, dst)] *)
Definition rename (src dst : string) : M World unit :=
  λ w, match resolve (cwd w) src, resolve (cwd w) dst with
       | Some s, Some d =>
           match lookup_node s (root w) with
           | None => err FileNotFoundError src w
           | Some n =>
               if decide (s = d) then (Ok tt, w)
               else if decide (s `prefix_of` d) then err OSError src w
               else match split_last d with
                    | None => err OSError dst w
                    | Some (dd, _) =>
                        match lookup_node dd (root w) with
                        | Some (Dir _) =>
                            match may_replace n (lookup_node d (root w)) with
                            | Some c => err c dst w
                            | None =>
                                (Ok tt, set_root (set_at d (Some n) (set_at s None (root w))) w)
                            end
                        | Some (File _) => err NotADirectoryError dst w
                        | None => err FileNotFoundError dst w
                        end
                    end
           end
       | _, _ => err FileNotFoundError src w
       end.

(** [open(path, "w")]: creates or truncates the file; the handle is the
    place of the file in the tree. *)
Definition open_w (path : string) : M World (list string) :=
  λ w, match resolve (cwd w) path with
       | None => err FileNotFoundError path w
       | Some p =>
           match split_last p with
           | None => err IsADirectoryError path w
           | Some (d, _) =>
               match lookup_node d (root w), lookup_node p (root w) with
               | Some (Dir _), Some (Dir _) => err IsADirectoryError path w
               | Some (Dir _), _ => (Ok p, set_root (set_at p (Some (File EmptyString)) (root w)) w)
               | Some (File _), _ => err NotADirectoryError path w
               | None, _ => err FileNotFoundError path w
               end
           end
       end.

(** [f.write(data)] on a file opened by [open_w]: appends at the end. *)
Definition write (f : list string) (data : string) : M World unit :=
  λ w, match lookup_node f (root w) with
       | Some (File c) => (Ok tt, set_root (set_at f (Some (File (c +:+ data))) (root w)) w)
       | _ => (Ok tt, w)
       end.

End os.

(** ** [time.strftime] *)

Module time.

Definition digit (d : nat) : ascii := ascii_of_nat (48 + d).

Fixpoint decimal_go (fuel n : nat) (acc : string) : string :=
  match fuel with
  | O => acc
  | S fuel' =>
      let acc' := String (digit (n mod 10)) acc in
      if (n / 10 =? 0)%nat then acc' else decimal_go fuel' (n / 10) acc'
  end.

Fixpoint zeros (k : nat) (s : string) : string :=
  match k with
  | O => s
  | S k' => String "0" (zeros k' s)
  end.

(** ["%0kd" % n] *)
Definition fmt_d (k n : nat) : string :=
  let d := decimal_go (S n) n EmptyString in
  zeros (k - String.length d) d.

(** [time.strftime("%Y%m%d-%H%M%S")] *)
Definition strftime_Ymd_HMS (t : struct_time) : string :=
  fmt_d 4 (tm_year t) +:+ fmt_d 2 (tm_mon t) +:+ fmt_d 2 (tm_mday t) +:+ "-"
  +:+ fmt_d 2 (tm_hour t) +:+ fmt_d 2 (tm_min t) +:+ fmt_d 2 (tm_sec t).

Definition strftime : M World string := λ w, (Ok (strftime_Ymd_HMS (now w)), w).

End time.

(** ** What the program calls but does not define *)

(** A chat message is a [dict[str, str]]. *)
Abbreviation MessagesStack := (list (gmap string string)).

Record ChatRequest := {
  req_model : string;
  req_messages : MessagesStack;
  req_temperature : Q }.

Class External := {
  (** [ast.parse(code)]: the module's tree, or the exception CPython raises. *)
  ast_parse : string → result ast;
  (** [chat.completions.create(...)] followed by
      [.choices[0].message.content]; the first argument counts the earlier
      requests, so the provider may answer the same request differently. *)
  chat_completions_create : nat → ChatRequest → result string;
  (** [f"{messages}"]: the [repr] of a list of dicts. *)
  repr_messages : MessagesStack → string }.

(** ** utils.py *)

Module utils.
Import PyStr.

(** [def extract_substring(s, start_marker, end_marker)] *)
Definition extract_substring (s start_marker end_marker : string) : string :=
  let start := find s start_marker 0 + len start_marker in
  let end_ := find s end_marker start in
  if (len start_marker <=? start) && negb (end_ =? -1)
  then slice s start end_
  else s.

(** [FunctionNameCollector.visit]: [visit_FunctionDef] for a [FunctionDef]
    node, [generic_visit] for every other class.  The accumulator is
    [self.function_names]. *)
Fixpoint visit (node : ast) (function_names : list string) : list string :=
  match node with
  | FunctionDef name children =>
      (* visit_FunctionDef: append, then generic_visit *)
      fold_left (λ acc child, visit child acc) children (function_names ++ [name])
  | AsyncFunctionDef _ children
  | ClassDef _ children
  | OtherNode _ children =>
      (* generic_visit *)
      fold_left (λ acc child, visit child acc) children function_names
  end.

(** [def extract_single_function_name(code)] *)
Definition extract_single_function_name `{External} (code : string) : result (option string) :=
  match ast_parse code with
  | Raise e => Raise e
  | Ok parsed_code =>
      let function_names := visit parsed_code [] in
      if (length function_names =? 1)%nat
      then Ok (function_names !! 0%nat)
      else Ok None
  end.

End utils.

(** ** client.py *)

Module client.

(** The wrapper object; its logger's records are [openai_log]. *)
Record OpenAIWrapper := { log_file : string }.

Definition logger_info (msg : string) : M World unit :=
  modify (set_openai_log (λ l, l ++ [(INFO, msg)])).
Definition logger_error (msg : string) : M World unit :=
  modify (set_openai_log (λ l, l ++ [(ERROR, msg)])).

(** The request itself: one more call on the provider. *)
Definition create `{External} (req : ChatRequest) : M World string :=
  λ w, (chat_completions_create (api_calls w) req, set_api_calls S w).

(** [OpenAIWrapper.complete] *)
Definition complete `{External} (self : OpenAIWrapper)
    (messages : MessagesStack) (model : string) (temperature : Q) : M World string :=
  try_except
    (response_content <- create {| req_model := model; req_messages := messages;
                                   req_temperature := temperature |} ;;
     logger_info ("Prompt:" +:+ PyStr.nl +:+ repr_messages messages +:+ PyStr.nl
                  +:+ "Response:" +:+ PyStr.nl +:+ response_content) ;;;
     ret response_content)%py
    (λ e, logger_error ("Error generating completion: " +:+ exn_str e) ;;;
          raise e)%py.

End client.

(** ** main.py *)

Module main.
Import os_path.

Record PythonFunction := { name : string; content : string }.

Record PythonFunctionSuite := { function : PythonFunction; test : PythonFunction }.

Record PythonFileScript := {
  openai_client : client.OpenAIWrapper;
  functions : list PythonFunctionSuite;
  module_name : string }.

Definition _logger_info {Self} (msg : string) : Method Self unit :=
  io (modify (set_main_log (λ l, l ++ [(INFO, msg)]))).
Definition _logger_error {Self} (msg : string) : Method Self unit :=
  io (modify (set_main_log (λ l, l ++ [(ERROR, msg)]))).

Definition no_single_function_msg : string :=
  "The generated Python code does not contain exactly one function definition.".

Definition sentinel : string := "lol".

(** [PythonFileScript.generate_python_code] *)
Definition generate_python_code `{External} (instructions_input : MessagesStack)
    : Method PythonFileScript PythonFunction :=
  (self <- self_ ;;
   response_content <- io (client.complete (openai_client self) instructions_input "gpt-4" (1 # 2)) ;;
   let python_script := utils.extract_substring response_content "```python" "```" in
   function_name <-
     try_except
       (of_result (utils.extract_single_function_name python_script))
       (λ e, _logger_error ("Error extracting function name: " +:+ exn_str e) ;;;
             _logger_error ("Python script: " +:+ python_script) ;;;
             ret (Some sentinel)) ;;
   match function_name with
   | None => raise (Exn ValueError no_single_function_msg)
   | Some function_name =>
       _logger_info ("Generated Python function: " +:+ function_name) ;;;
       ret {| name := function_name; content := python_script |}
   end)%py.

Definition system_message : gmap string string :=
  {[ "role" := "system"; "content" := "You are a python programmer." ]}.
Definition user_message (text : string) : gmap string string :=
  {[ "role" := "user"; "content" := text ]}.

(** [PythonFileScript.generate_python_function] *)
Definition generate_python_function `{External} (function_goal : string)
    : Method PythonFileScript PythonFunction :=
  let prompt := "Write a Python function to " +:+ function_goal
                +:+ ". The code must be typed. The answer must only be the python code and nothing else." in
  let instructions_input := [ system_message; user_message prompt ] in
  generate_python_code instructions_input.

(** [PythonFileScript.generate_python_test] *)
Definition generate_python_test `{External} (function_to_test : PythonFunction)
    (script_package_name : string) : Method PythonFileScript PythonFunction :=
  (self <- self_ ;;
   let prompt := "Write a Python test for the function above. The code must be typed and shall use pytest parametric tests. The function must be called test_"
                 +:+ name function_to_test
                 +:+ " The answer must only be the python code and nothing else." in
   let instructions_input :=
     [ system_message;
       user_message ("The module can be imported with ```python" +:+ PyStr.nl
                     +:+ "from " +:+ script_package_name +:+ " import " +:+ module_name self
                     +:+ PyStr.nl +:+ "```" +:+ PyStr.nl +:+ "Code to test:" +:+ PyStr.nl
                     +:+ "```python" +:+ PyStr.nl +:+ content function_to_test +:+ PyStr.nl
                     +:+ "```");
       user_message prompt ] in
   generate_python_code instructions_input)%py.

Definition functions_append (x : PythonFunctionSuite) (self : PythonFileScript) : PythonFileScript :=
  {| openai_client := openai_client self;
     functions := functions self ++ [x];
     module_name := module_name self |}.

(** [PythonFileScript.add_function] *)
Definition add_function `{External} (function_goal script_package_name : string)
    : Method PythonFileScript unit :=
  (python_function <- generate_python_function function_goal ;;
   python_test <- generate_python_test python_function script_package_name ;;
   set_self (functions_append {| function := python_function; test := python_test |}))%py.

(** [PythonFileScript.write_to_file] *)
Definition write_to_file (workspace package_name : string) : Method PythonFileScript unit :=
  (self <- self_ ;;
   let script_filepath := join workspace [package_name; module_name self +:+ ".py"] in
   script_file <- io (os.open_w script_filepath) ;;
   for_each (functions self)
     (λ function_set, io (os.write script_file (content (function function_set)))) ;;;
   let test_filepath := join workspace ["tests"; "test_" +:+ module_name self +:+ ".py"] in
   script_file <- io (os.open_w test_filepath) ;;
   for_each (functions self)
     (λ function_set, io (os.write script_file (content (test function_set)))))%py.

Record PythonPackage := {
  _openai_client : client.OpenAIWrapper;
  _workspace_directory : string;
  _backup_directory : string;
  _package_name : string;
  _package_directory : string;
  _test_directory : string;
  _scripts : list PythonFileScript }.

(** [PythonPackage.init_workspace] *)
Definition init_workspace : Method PythonPackage unit :=
  (self <- self_ ;;
   io (os.makedirs (_workspace_directory self) true) ;;;
   entries <- io (os.listdir (_workspace_directory self)) ;;
   (match entries with
    | [] => ret tt
    | _ :: _ =>
        stamp <- io time.strftime ;;
        let backup_subdirectory := join (_backup_directory self) [stamp] in
        io (os.makedirs backup_subdirectory false) ;;;
        filenames <- io (os.listdir (_workspace_directory self)) ;;
        for_each filenames
          (λ filename,
             let source := join (_workspace_directory self) [filename] in
             let destination := join backup_subdirectory [filename] in
             io (os.rename source destination))
    end) ;;;
   (* Init package directory *)
   io (os.makedirs (_package_directory self) true) ;;;
   f <- io (os.open_w (join (_package_directory self) ["__init__.py"])) ;;
   io (os.write f EmptyString) ;;;
   (* Init test directory *)
   io (os.makedirs (_test_directory self) true) ;;;
   f <- io (os.open_w (join (_test_directory self) ["__init__.py"])) ;;
   io (os.write f EmptyString))%py.

(** [PythonPackage.__init__], up to the call of [init_workspace]. *)
Definition new_package (workspace_directory backup_directory package_name : string)
    : PythonPackage :=
  {| _openai_client := {| client.log_file := "openai_log.txt" |};
     _workspace_directory := workspace_directory;
     _backup_directory := backup_directory;
     _package_name := package_name;
     _package_directory := join workspace_directory [package_name];
     _test_directory := join workspace_directory ["tests"];
     _scripts := [] |}.

(** [PythonPackage.write_files] *)
Definition write_files : Method PythonPackage unit :=
  (self <- self_ ;;
   for_each (_scripts self)
     (λ script,
        call script (write_to_file (_workspace_directory self) (_package_name self)) ;;;
        ret tt))%py.

Definition scripts_append (x : PythonFileScript) (self : PythonPackage) : PythonPackage :=
  {| _openai_client := _openai_client self;
     _workspace_directory := _workspace_directory self;
     _backup_directory := _backup_directory self;
     _package_name := _package_name self;
     _package_directory := _package_directory self;
     _test_directory := _test_directory self;
     _scripts := _scripts self ++ [x] |}.

(** [PythonPackage.add_function]; named apart from the method of the same
    name of [PythonFileScript]. *)
Definition package_add_function `{External} (function_goal : string)
    : Method PythonPackage unit :=
  (self <- self_ ;;
   let my_script := {| openai_client := _openai_client self; functions := []; module_name := "main" |} in
   called <- call my_script (add_function function_goal (_package_name self)) ;;
   let my_script := snd called in
   set_self (scripts_append my_script))%py.

End main.

(** ** Function definitions of a tree (specification side) *)

Module AstSpec.

(** The names of the [FunctionDef] nodes of a tree, outermost first and in
    source order; a definition nested in a function or class body counts
    like any other. *)
Fixpoint function_defs (t : ast) : list string :=
  match t with
  | FunctionDef name children => name :: flat_map function_defs children
  | AsyncFunctionDef _ children
  | ClassDef _ children
  | OtherNode _ children => flat_map function_defs children
  end.

(** No node of the tree is a [FunctionDef]. *)
Fixpoint no_function_def (t : ast) : bool :=
  match t with
  | FunctionDef _ _ => false
  | AsyncFunctionDef _ children
  | ClassDef _ children
  | OtherNode _ children => forallb no_function_def children
  end.

(** The names of the [AsyncFunctionDef] nodes of a tree. *)
Fixpoint async_defs (t : ast) : list string :=
  match t with
  | AsyncFunctionDef name children => name :: flat_map async_defs children
  | FunctionDef _ children
  | ClassDef _ children
  | OtherNode _ children => flat_map async_defs children
  end.

End AstSpec.

(** The texts of a list, one after the other, nothing in between. *)
Definition joined (l : list string) : string := foldr String.append EmptyString l.

(** The state of the tree in which a script of module "main" can be
    written below the workspace [W]: the package and test directories
    exist and neither file name is taken by a directory. *)
Definition ready (W : list string) (package_name : string) (r : node) : Prop :=
  fstree.is_dir (W ++ [package_name]) r = true ∧
  fstree.is_dir (W ++ ["tests"]) r = true ∧
  fstree.is_dir ((W ++ [package_name]) ++ ["main.py"]) r = false ∧
  fstree.is_dir ((W ++ ["tests"]) ++ ["test_main.py"]) r = false.

(** ** Concrete inputs used by the examples *)

Module Examples.
Import PyStr.

(** The fenced answer of the specification's example. *)
Definition fenced_x : string :=
  "```python" +:+ nl +:+ "x=1" +:+ nl +:+ "```".

(** Sources, each with the tree CPython's [ast.parse] builds for it. *)
Definition leaf (cls : string) : ast := OtherNode cls [].
Definition module_ (body : list ast) : ast := OtherNode "Module" body.
Definition def_ (name : string) : ast := FunctionDef name [leaf "arguments"; leaf "Pass"].

Definition src_def_foo : string := "def foo():" +:+ nl +:+ " pass".
Definition tree_def_foo : ast := module_ [def_ "foo"].

Definition src_def_test_foo : string := "def test_foo():" +:+ nl +:+ " pass".
Definition tree_def_test_foo : ast := module_ [def_ "test_foo"].

Definition src_assign : string := "x = 1".
Definition tree_assign : ast :=
  module_ [OtherNode "Assign" [OtherNode "Name" [leaf "Store"]; leaf "Constant"]].

Definition src_two_defs : string := "def a():pass" +:+ nl +:+ "def b():pass".
Definition tree_two_defs : ast := module_ [def_ "a"; def_ "b"].

Definition src_async_foo : string := "async def foo(): pass".
Definition tree_async_foo : ast :=
  module_ [AsyncFunctionDef "foo" [leaf "arguments"; leaf "Pass"]].

(** A text CPython rejects. *)
Definition src_broken : string := "def (:".

(** [ast.parse] on the texts above; no other text is parsed in the
    examples. *)
Definition parse_table (code : string) : result ast :=
  if String.eqb code src_def_foo then Ok tree_def_foo
  else if String.eqb code src_def_test_foo then Ok tree_def_test_foo
  else if String.eqb code src_assign then Ok tree_assign
  else if String.eqb code src_two_defs then Ok tree_two_defs
  else if String.eqb code src_async_foo then Ok tree_async_foo
  else Raise (Exn SyntaxError "invalid syntax (<unknown>, line 1)").

Definition fence (code : string) : string := "```python" +:+ code +:+ "```".

(** A provider that gives the listed answers in turn and then fails. *)
Definition scripted (answers : list (result string)) : External :=
  {| ast_parse := parse_table;
     chat_completions_create n _ :=
       nth n answers (Raise (Exn APIError "Connection error."));
     repr_messages _ := "[...]" |}.

Definition wrapper0 : client.OpenAIWrapper := {| client.log_file := "openai_log.txt" |}.

(** A script that holds nothing yet, as [PythonPackage.add_function] makes it. *)
Definition script0 : main.PythonFileScript :=
  {| main.openai_client := wrapper0; main.functions := []; main.module_name := "main" |}.

Definition goal0 : string := "list all files in a directory".

(** The messages [generate_python_function goal0] sends. *)
Definition msgs0 : MessagesStack :=
  [ main.system_message;
    main.user_message
      ("Write a Python function to " +:+ goal0
       +:+ ". The code must be typed. The answer must only be the python code and nothing else.") ].

(** Providers: one answers with text that does not parse, one with an
    assignment and no definition, one with a function and then fails, one
    with a function and then its test. *)
Definition answers_broken : External := scripted [Ok (fence src_broken)].
Definition answers_assign : External := scripted [Ok (fence src_assign)].
Definition answers_once : External := scripted [Ok (fence src_def_foo)].
Definition answers_twice : External :=
  scripted [Ok (fence src_def_foo); Ok (fence src_def_test_foo)].

(** A second run: the workspace of the first run is still there, holding
    these entries. *)
Definition entries0 : gmap string node :=
  {[ "notes.txt" := File "keep me";
     "testpackage" := Dir {[ "main.py" := File "old code" ]} ]}.

Definition tree0 : node :=
  Dir {[ "home" := Dir {[ "workspace" := Dir entries0 ]} ]}.

Definition world0 : World :=
  {| main_log := []; openai_log := []; api_calls := 0;
     cwd := ["home"]; root := tree0;
     now := {| tm_year := 2024; tm_mon := 3; tm_mday := 7;
               tm_hour := 9; tm_min := 5; tm_sec := 0 |} |}.

(** A workspace as [init_workspace] leaves it. *)
Definition tree1 : node :=
  Dir {[ "home" :=
           Dir {[ "workspace" :=
                    Dir {[ "testpackage" := Dir {[ "__init__.py" := File EmptyString ]};
                           "tests" := Dir {[ "__init__.py" := File EmptyString ]} ]} ]} ]}.

Definition world1 : World :=
  {| main_log := []; openai_log := []; api_calls := 0;
     cwd := ["home"]; root := tree1; now := now world0 |}.

Definition suite_of (fn : string) : main.PythonFunctionSuite :=
  {| main.function := {| main.name := fn;
                         main.content := "def " +:+ fn +:+ "():pass" |};
     main.test := {| main.name := "test_" +:+ fn;
                     main.content := "def test_" +:+ fn +:+ "():pass" |} |}.

Definition script_with (suites : list main.PythonFunctionSuite) : main.PythonFileScript :=
  {| main.openai_client := wrapper0; main.functions := suites; main.module_name := "main" |}.

Definition package0 : main.PythonPackage :=
  main.new_package "workspace" "backup" "testpackage".

(** A package after two calls of [add_function]. *)
Definition package2 : main.PythonPackage :=
  main.scripts_append (script_with [suite_of "b"])
    (main.scripts_append (script_with [suite_of "a"]) package0).

End Examples.

(** ** main.py, the rest: running the tests *)

Module main_tests.
Import main.

(** What [process.communicate()] hands back once the process has ended,
    with the exit status the process object then carries. *)
Record Completed := {
  returncode : Z;
  stdout : string;   (* bytes *)
  stderr : string }. (* bytes *)

Class Subprocess := {
  (** [asyncio.create_subprocess_exec] on the command, both streams piped,
      in the given directory, followed by [communicate()]: the exception of the spawn, or what the
      process left; the process may change the world. *)
  communicate : list string → string → World → result Completed * World;
  (** [bytes.decode()] *)
  bytes_decode : string → result string }.

(** [PythonPackage.execute_tests] *)
Definition execute_tests `{Subprocess} : Method PythonPackage unit :=
  (write_files ;;;
   let cmd := ["pytest"; "tests"] in
   _logger_info ("Executing Python tests: " +:+ String.concat " " cmd) ;;;
   self <- self_ ;;
   process <- io (communicate cmd (_workspace_directory self)) ;;
   text <- of_result (bytes_decode (stdout process)) ;;
   _logger_info ("stdout:" +:+ PyStr.nl +:+ text))%py.

(** Two ways a test run can go that differ at most in the exit status
    and in what was written to the error stream. *)
Definition same_output (P1 P2 : Subprocess) : Prop :=
  (∀ b, @bytes_decode P1 b = @bytes_decode P2 b) ∧
  ∀ cmd dir w,
    match @communicate P1 cmd dir w, @communicate P2 cmd dir w with
    | (Ok c1, w1), (Ok c2, w2) => stdout c1 = stdout c2 ∧ w1 = w2
    | (Raise e1, w1), (Raise e2, w2) => e1 = e2 ∧ w1 = w2
    | _, _ => False
    end.

End main_tests.

(** ** Shape of a tree (specification side) *)

Module AstShape.

Definition children (t : ast) : list ast :=
  match t with
  | FunctionDef _ ch | AsyncFunctionDef _ ch | ClassDef _ ch | OtherNode _ ch => ch
  end.

(** [sub] is [t] or lies somewhere below it. *)
Inductive within : ast → ast → Prop :=
| within_here (t : ast) : within t t
| within_child (sub c t : ast) : c ∈ children t → within sub c → within sub t.

End AstShape.

(** ** More concrete inputs *)

Module MoreExamples.
Import PyStr.

(** A method in a class, and a function with an inner helper. *)
Definition tree_method : ast :=
  Examples.module_ [ClassDef "A" [Examples.def_ "run"]].
Definition outer_body : list ast :=
  [Examples.leaf "arguments"; Examples.def_ "helper";
   OtherNode "Return" [OtherNode "Name" [Examples.leaf "Load"]]].
Definition tree_inner : ast := Examples.module_ [FunctionDef "outer" outer_body].
Definition src_inner : string :=
  "def outer():" +:+ nl +:+ " def helper():pass" +:+ nl +:+ " return helper".

Definition src_method : string := "class A:" +:+ nl +:+ " def run():pass".

Definition parses_more : External :=
  {| ast_parse code :=
       if String.eqb code src_inner then Ok tree_inner
       else if String.eqb code src_method then Ok tree_method
       else Examples.parse_table code;
     chat_completions_create n _ := Raise (Exn APIError "Connection error.");
     repr_messages _ := "[...]" |}.

(** A chatty answer: text before and after the fenced code. *)
Definition chat_before : string := "Sure, here it is:" +:+ nl.
Definition chat_code : string := nl +:+ "x=1" +:+ nl.
Definition chat_after : string := nl +:+ "Anything else?".

(** A provider that never answers. *)
Definition answers_never : External := Examples.scripted [].

(** A run that is interrupted while the answer is being parsed. *)
Definition parse_interrupted : External :=
  {| ast_parse _ := Raise (Exn KeyboardInterrupt EmptyString);
     chat_completions_create n _ := Ok (Examples.fence Examples.src_def_foo);
     repr_messages _ := "[...]" |}.

(** A workspace with the package directory and no test directory, and
    one with neither. *)
Definition tree_no_tests : node :=
  Dir {[ "home" := Dir {[ "workspace" := Dir {[ "testpackage" := Dir ∅ ]} ]} ]}.
Definition tree_none : node := Dir {[ "home" := Dir {[ "other.txt" := File "mine" ]} ]}.
(** The workspace of [Examples.tree0], with this second's backup
    directory already there. *)
Definition tree_taken : node :=
  Dir {[ "home" :=
           Dir {[ "workspace" := Dir Examples.entries0;
                  "backup" := Dir {[ "20240307-090500" := Dir ∅ ]} ]} ]}.

Definition world_with (r : node) : World :=
  {| main_log := []; openai_log := []; api_calls := 0;
     cwd := ["home"]; root := r; now := now Examples.world0 |}.

(** Two test runs that differ in exit status and error stream only. *)
Definition pytest_run (code : Z) (err : string) : main_tests.Subprocess :=
  {| main_tests.communicate cmd dir w :=
       (Ok {| main_tests.returncode := code;
              main_tests.stdout := "1 passed";
              main_tests.stderr := err |}, w);
     main_tests.bytes_decode b := Ok b |}.

End MoreExamples.

(** * Properties *)

(** ** Facts on strings *)

Module PyStrFacts.
Import PyStr.

#[local] Arguments append !s1 s2 : simpl nomatch.

Lemma app_empty_r (s : string) : s +:+ EmptyString = s.
Proof. induction s as [|c s IH]; simpl; [reflexivity | now rewrite IH]. Qed.

Lemma app_assoc (s t u : string) : (s +:+ t) +:+ u = s +:+ (t +:+ u).
Proof. induction s as [|c s IH]; simpl; [reflexivity | now rewrite IH]. Qed.

Lemma length_app (s t : string) :
  String.length (s +:+ t) = (String.length s + String.length t)%nat.
Proof. induction s as [|c s IH]; simpl; [reflexivity | now rewrite IH]. Qed.

Lemma drop_app (pre t : string) : drop_str (String.length pre) (pre +:+ t) = t.
Proof. induction pre as [|c pre IH]; simpl; [reflexivity | exact IH]. Qed.

Lemma take_app (pre t : string) : take_str (String.length pre) (pre +:+ t) = pre.
Proof. induction pre as [|c pre IH]; simpl; [reflexivity | now rewrite IH]. Qed.

Lemma take_drop (n : nat) (s : string) : take_str n s +:+ drop_str n s = s.
Proof.
  revert s; induction n as [|n IH]; intros [|c s]; simpl; try reflexivity.
  now rewrite IH.
Qed.

Lemma length_take (n : nat) (s : string) :
  (n ≤ String.length s)%nat → String.length (take_str n s) = n.
Proof.
  revert s; induction n as [|n IH]; intros [|c s]; simpl; intros Hn;
    try reflexivity; try lia.
  rewrite IH; [reflexivity | lia].
Qed.

Lemma app_inv_head (s t u : string) : s +:+ t = s +:+ u → t = u.
Proof. induction s as [|c s IH]; simpl; intros Heq; [exact Heq | injection Heq; auto]. Qed.

(** Two ways of cutting the same string at the same place agree. *)
Lemma app_eq_length (a b c d : string) :
  a +:+ b = c +:+ d → String.length a = String.length c → a = c ∧ b = d.
Proof.
  revert c; induction a as [|x a IH]; intros [|y c]; simpl; intros Heq Hlen;
    try discriminate; [split; [reflexivity | exact Heq] |].
  injection Heq as -> Heq. injection Hlen as Hlen.
  destruct (IH _ Heq Hlen) as [-> ->]. split; reflexivity.
Qed.

Lemma prefix_iff (sub s : string) :
  String.prefix sub s = true ↔ ∃ post, s = sub +:+ post.
Proof.
  revert s; induction sub as [|c sub IH]; intros s.
  - split; [intros _; exists s; reflexivity | intros _; now destruct s].
  - destruct s as [|d s]; simpl.
    + split; [discriminate | intros [post Hpost]; discriminate].
    + destruct (ascii_dec c d) as [->|Hne].
      * rewrite IH. split; intros [post Hpost]; exists post.
        -- now rewrite Hpost.
        -- now injection Hpost.
      * split; [discriminate | intros [post Hpost]; injection Hpost; congruence].
Qed.

End PyStrFacts.

(** ** Occurrences and [str.find] *)

Module OccFacts.
Import PyStr PyStrFacts Occ.

#[local] Arguments append !s1 s2 : simpl nomatch.

Lemma occurs_at_0 (sub s : string) :
  occurs_at sub s 0 ↔ String.prefix sub s = true.
Proof.
  rewrite prefix_iff. split.
  - intros ([|c pre] & post & Hs & Hlen); [|discriminate]. now exists post.
  - intros [post Hs]. now exists EmptyString, post.
Qed.

Lemma occurs_at_S (sub : string) (c : ascii) (s : string) (k : nat) :
  occurs_at sub (String c s) (S k) ↔ occurs_at sub s k.
Proof.
  split.
  - intros ([|d pre] & post & Hs & Hlen); [discriminate|].
    simpl in Hs. injection Hs as -> Hs. injection Hlen as Hlen.
    now exists pre, post.
  - intros (pre & post & Hs & Hlen). exists (String c pre), post.
    simpl. now rewrite Hs, Hlen.
Qed.

Lemma occurs_at_empty (sub : string) (k : nat) :
  occurs_at sub EmptyString (S k) → False.
Proof. intros ([|d pre] & post & Hs & Hlen); discriminate. Qed.

Lemma occurs_at_bound (sub s : string) (k : nat) :
  occurs_at sub s k → (k + String.length sub ≤ String.length s)%nat.
Proof.
  intros (pre & post & -> & <-). rewrite !length_app. lia.
Qed.

Lemma occurs_at_drop (sub s : string) (k0 k : nat) :
  (k0 ≤ String.length s)%nat →
  occurs_at sub (drop_str k0 s) k ↔ occurs_at sub s (k0 + k).
Proof.
  revert s; induction k0 as [|k0 IH]; intros s Hk0; simpl; [reflexivity|].
  destruct s as [|c s]; simpl in Hk0; [lia|].
  rewrite occurs_at_S. apply IH. lia.
Qed.

(** What [find_from] returns: [-1] and no occurrence at all, or the offset
    of the first occurrence, shifted by [i]. *)
Lemma find_from_cases (sub s : string) (i : Z) :
  (find_from sub s i = -1 ∧ ∀ k, ¬ occurs_at sub s k) ∨
  (∃ k, find_from sub s i = i + Z.of_nat k ∧ first_from sub s 0 k).
Proof.
  revert i; induction s as [|c s IH]; intros i.
  - cbn [find_from]. destruct (String.prefix sub EmptyString) eqn:Hp.
    + right. exists 0%nat. split; [lia|]. split; [lia|]. split.
      * now apply occurs_at_0.
      * intros j _ Hj; lia.
    + left. split; [reflexivity|]. intros [|k] Hk.
      * apply occurs_at_0 in Hk. congruence.
      * now apply occurs_at_empty in Hk.
  - cbn [find_from]. destruct (String.prefix sub (String c s)) eqn:Hp.
    + right. exists 0%nat. split; [lia|]. split; [lia|]. split.
      * now apply occurs_at_0.
      * intros j _ Hj; lia.
    + destruct (IH (i + 1)) as [[Hf Hno] | (k & Hf & _ & Hk & Hmin)].
      * left. split; [exact Hf|]. intros [|k] Hk.
        -- apply occurs_at_0 in Hk. congruence.
        -- apply occurs_at_S in Hk. now apply (Hno k).
      * right. exists (S k). split; [lia|]. split; [lia|]. split.
        -- now apply occurs_at_S.
        -- intros [|j] _ Hj Hocc.
           ++ apply occurs_at_0 in Hocc. congruence.
           ++ apply occurs_at_S in Hocc. apply (Hmin j); [lia | lia | exact Hocc].
Qed.

(** What [s.find(sub, k0)] returns for a non-negative [k0]. *)
Lemma find_cases (s sub : string) (k0 : nat) :
  (find s sub (Z.of_nat k0) = -1 ∧ ∀ j, (k0 ≤ j)%nat → ¬ occurs_at sub s j) ∨
  (∃ j, find s sub (Z.of_nat k0) = Z.of_nat j ∧ first_from sub s k0 j).
Proof.
  unfold find, len.
  destruct (Z.of_nat k0 <? 0) eqn:Hneg; [apply Z.ltb_lt in Hneg; lia|].
  destruct (Z.of_nat (String.length s) <? Z.of_nat k0) eqn:Hbig.
  - apply Z.ltb_lt in Hbig. left. split; [reflexivity|].
    intros j Hj Hocc. apply occurs_at_bound in Hocc. lia.
  - apply Z.ltb_ge in Hbig. rewrite Nat2Z.id.
    assert (Hk0 : (k0 ≤ String.length s)%nat) by lia.
    destruct (find_from_cases sub (drop_str k0 s) (Z.of_nat k0))
      as [[Hf Hno] | (k & Hf & _ & Hk & Hmin)].
    + left. split; [exact Hf|]. intros j Hj Hocc.
      apply (Hno (j - k0)%nat). apply occurs_at_drop; [exact Hk0|].
      now replace (k0 + (j - k0))%nat with j by lia.
    + right. exists (k0 + k)%nat. split; [lia|]. split; [lia|]. split.
      * now apply occurs_at_drop.
      * intros j Hj1 Hj2 Hocc. apply (Hmin (j - k0)%nat); [lia | lia |].
        apply occurs_at_drop; [exact Hk0|].
        now replace (k0 + (j - k0))%nat with j by lia.
Qed.

Lemma first_from_unique (sub s : string) (k i j : nat) :
  first_from sub s k i → first_from sub s k j → i = j.
Proof.
  intros (Hi1 & Hi2 & Hi3) (Hj1 & Hj2 & Hj3).
  destruct (Nat.lt_trichotomy i j) as [Hlt | [Heq | Hgt]]; [|exact Heq|].
  - exfalso. now apply (Hj3 i).
  - exfalso. now apply (Hi3 j).
Qed.

(** [s[a:b]] on a string cut at [a] and [b]. *)
Lemma slice_between (pre mid post : string) :
  slice (pre +:+ mid +:+ post)
        (Z.of_nat (String.length pre))
        (Z.of_nat (String.length pre + String.length mid)) = mid.
Proof.
  unfold slice, slice_index, len. rewrite !length_app.
  destruct (Z.of_nat (String.length pre) <? 0) eqn:H1; [apply Z.ltb_lt in H1; lia|].
  destruct (Z.of_nat (String.length pre + String.length mid) <? 0) eqn:H2;
    [apply Z.ltb_lt in H2; lia|].
  rewrite !Z.min_l by lia.
  replace (Z.to_nat (Z.of_nat (String.length pre + String.length mid)
                     - Z.of_nat (String.length pre))) with (String.length mid) by lia.
  rewrite Nat2Z.id, drop_app. apply take_app.
Qed.

End OccFacts.

(** ** [extract_substring] *)

Module ExtractSubstring.
Import PyStr PyStrFacts Occ OccFacts utils.

#[local] Arguments append !s1 s2 : simpl nomatch.

Lemma occurs_at_iff (sub s : string) (k : nat) :
  occurs_at sub s k ↔
  (k ≤ String.length s)%nat ∧ String.prefix sub (drop_str k s) = true.
Proof.
  split.
  - intros Hocc. pose proof (occurs_at_bound _ _ _ Hocc) as Hb.
    assert (Hk : (k ≤ String.length s)%nat) by lia. split; [exact Hk|].
    apply occurs_at_0, occurs_at_drop; [exact Hk|].
    now rewrite Nat.add_0_r.
  - intros [Hk Hp]. apply occurs_at_0, occurs_at_drop in Hp; [|exact Hk].
    now rewrite Nat.add_0_r in Hp.
Qed.

Lemma no_start (s sm em : string) :
  (∀ i, ¬ occurs_at sm s i) → extract_substring s sm em = s.
Proof.
  intros Hno. unfold extract_substring.
  destruct (find_cases s sm 0) as [[Hf _] | (i & _ & _ & Hi & _)].
  - change (Z.of_nat 0) with 0 in Hf. rewrite Hf.
    destruct (len sm <=? -1 + len sm) eqn:Hle; [apply Z.leb_le in Hle; lia|].
    reflexivity.
  - now destruct (Hno i).
Qed.

Lemma no_end_after (s sm em : string) (i : nat) :
  first_from sm s 0 i →
  (∀ j, (i + String.length sm ≤ j)%nat → ¬ occurs_at em s j) →
  extract_substring s sm em = s.
Proof.
  intros Hi Hno. unfold extract_substring.
  destruct (find_cases s sm 0) as [[_ Hnone] | (i' & Hf & Hi')].
  - destruct Hi as (_ & Hocc & _). destruct (Hnone i); [lia | exact Hocc].
  - rewrite (first_from_unique _ _ _ _ _ Hi' Hi) in Hf.
    change (Z.of_nat 0) with 0 in Hf. rewrite Hf.
    replace (Z.of_nat i + len sm) with (Z.of_nat (i + String.length sm))
      by (unfold len; lia).
    destruct (find_cases s em (i + String.length sm)) as [[Hg _] | (j & _ & Hj & Hocc & _)].
    + rewrite Hg. now rewrite andb_false_r.
    + now destruct (Hno j).
Qed.

Lemma found (s sm em : string) (i j : nat) :
  first_from sm s 0 i → first_from em s (i + String.length sm) j →
  extract_substring s sm em
  = slice s (Z.of_nat (i + String.length sm)) (Z.of_nat j).
Proof.
  intros Hi Hj. unfold extract_substring.
  destruct (find_cases s sm 0) as [[_ Hnone] | (i' & Hf & Hi')].
  - destruct Hi as (_ & Hocc & _). destruct (Hnone i); [lia | exact Hocc].
  - rewrite (first_from_unique _ _ _ _ _ Hi' Hi) in Hf.
    change (Z.of_nat 0) with 0 in Hf. rewrite Hf.
    replace (Z.of_nat i + len sm) with (Z.of_nat (i + String.length sm))
      by (unfold len; lia).
    destruct (find_cases s em (i + String.length sm)) as [[_ Hnone] | (j' & Hg & Hj')].
    + destruct Hj as (Hle & Hocc & _). now destruct (Hnone j).
    + rewrite (first_from_unique _ _ _ _ _ Hj' Hj) in Hg. rewrite Hg.
      destruct (len sm <=? Z.of_nat (i + String.length sm)) eqn:Hle;
        [|apply Z.leb_gt in Hle; unfold len in Hle; lia].
      destruct (Z.of_nat j =? -1) eqn:Hneg; [apply Z.eqb_eq in Hneg; lia|].
      reflexivity.
Qed.

(** An occurrence of [sm] and a later one of [em] cut [s] in five. *)
Lemma cut_between (s sm em : string) (i j : nat) :
  occurs_at sm s i → occurs_at em s j → (i + String.length sm ≤ j)%nat →
  ∃ pre mid post,
    s = pre +:+ sm +:+ mid +:+ em +:+ post ∧ String.length pre = i ∧
    (i + String.length sm + String.length mid)%nat = j.
Proof.
  intros (pre & rest & Hs & Hpre) (pre' & post & Hs' & Hpre') Hle.
  set (a := pre +:+ sm).
  assert (Ha : String.length a = (i + String.length sm)%nat)
    by (unfold a; rewrite length_app; lia).
  set (mid := drop_str (String.length a) pre').
  assert (Htake : take_str (String.length a) pre' = a).
  { assert (Hlen : String.length (take_str (String.length a) pre') = String.length a)
      by (apply length_take; lia).
    assert (Heq : take_str (String.length a) pre' +:+ (mid +:+ em +:+ post) = a +:+ rest).
    { rewrite <- app_assoc. unfold mid. rewrite take_drop.
      unfold a. rewrite app_assoc. congruence. }
    now destruct (app_eq_length _ _ _ _ Heq Hlen). }
  assert (Hpre'_eq : pre' = a +:+ mid)
    by (rewrite <- Htake; unfold mid; now rewrite take_drop).
  exists pre, mid, post. split; [|split].
  - rewrite Hs', Hpre'_eq. unfold a. now rewrite !app_assoc.
  - exact Hpre.
  - rewrite <- Ha, <- Hpre', Hpre'_eq, length_app. reflexivity.
Qed.

End ExtractSubstring.

Lemma first_fromb_correct (sub s : string) (k i : nat) :
  Occ.first_fromb sub s k i = true → Occ.first_from sub s k i.
Proof.
  unfold Occ.first_fromb, Occ.occurs_atb.
  rewrite !andb_true_iff, forallb_forall, Nat.leb_le.
  intros [[Hk [Hlen Hp]] Hmin]. apply Nat.leb_le in Hlen.
  split; [exact Hk|]. split.
  - apply ExtractSubstring.occurs_at_iff. now split.
  - intros j Hj1 Hj2 Hocc. apply ExtractSubstring.occurs_at_iff in Hocc.
    destruct Hocc as [Hjlen Hjp].
    assert (Hin : In j (seq k (i - k))) by (apply in_seq; lia).
    specialize (Hmin j Hin). apply negb_true_iff, andb_false_iff in Hmin.
    destruct Hmin as [Hmin | Hmin]; [apply Nat.leb_gt in Hmin; lia | congruence].
Qed.

(** C5. [extract_substring] returns what lies strictly between the end of
    the first occurrence of the start marker and the first occurrence of
    the end marker found from there on; it returns the text unchanged when
    the start marker does not occur, when the end marker does not occur,
    and when the end marker only occurs before the end of the start
    marker.  On the fenced block of the specification it returns the line
    between the fences, both line breaks included. *)
Theorem extract_substring_spec (s start_marker end_marker : string) :
  (∀ i j,
     Occ.first_from start_marker s 0 i →
     Occ.first_from end_marker s (i + String.length start_marker) j →
     ∃ pre post,
       s = pre +:+ start_marker +:+ utils.extract_substring s start_marker end_marker
               +:+ end_marker +:+ post ∧
       String.length pre = i ∧
       (i + String.length start_marker
        + String.length (utils.extract_substring s start_marker end_marker))%nat = j) ∧
  ((∀ i, ¬ Occ.occurs_at start_marker s i) →
     utils.extract_substring s start_marker end_marker = s) ∧
  ((∀ j, ¬ Occ.occurs_at end_marker s j) →
     utils.extract_substring s start_marker end_marker = s) ∧
  (∀ i,
     Occ.first_from start_marker s 0 i →
     (∀ j, Occ.occurs_at end_marker s j → (j < i + String.length start_marker)%nat) →
     utils.extract_substring s start_marker end_marker = s) ∧
  utils.extract_substring Examples.fenced_x "```python" "```"
  = PyStr.nl +:+ "x=1" +:+ PyStr.nl.
Proof.
  split; [|split; [|split; [|split]]].
  - intros i j Hi Hj.
    destruct Hi as (Hi0 & Hiocc & Himin). destruct Hj as (Hj0 & Hjocc & Hjmin).
    destruct (ExtractSubstring.cut_between _ _ _ _ _ Hiocc Hjocc Hj0)
      as (pre & mid & post & Hs & Hpre & Hmid).
    assert (Hres : utils.extract_substring s start_marker end_marker = mid).
    { rewrite (ExtractSubstring.found s start_marker end_marker i j);
        [| now repeat split | now repeat split].
      rewrite Hs, <- Hmid, <- Hpre.
      rewrite <- (PyStrFacts.app_assoc pre start_marker).
      replace (String.length pre + String.length start_marker)%nat
        with (String.length (pre +:+ start_marker))
        by apply PyStrFacts.length_app.
      apply OccFacts.slice_between. }
    rewrite Hres. exists pre, post. now repeat split.
  - apply ExtractSubstring.no_start.
  - intros Hno.
    destruct (OccFacts.find_cases s start_marker 0) as [[_ Hnone] | (i & _ & Hi)].
    + apply ExtractSubstring.no_start. intros i. apply Hnone. lia.
    + apply (ExtractSubstring.no_end_after s start_marker end_marker i Hi).
      intros j _. apply Hno.
  - intros i Hi Hbefore.
    apply (ExtractSubstring.no_end_after s start_marker end_marker i Hi).
    intros j Hj Hocc. specialize (Hbefore j Hocc). lia.
  - vm_compute. reflexivity.
Qed.

Lemma extract_substring_spec_witness :
  Occ.first_from "```python" Examples.fenced_x 0 0 ∧
  Occ.first_from "```" Examples.fenced_x (0 + String.length "```python") 14 ∧
  ∃ pre post,
    Examples.fenced_x
    = pre +:+ "```python" +:+ utils.extract_substring Examples.fenced_x "```python" "```"
          +:+ "```" +:+ post ∧
    String.length pre = 0%nat ∧
    (0 + String.length "```python"
     + String.length (utils.extract_substring Examples.fenced_x "```python" "```"))%nat
    = 14%nat.
Proof.
  assert (H1 : Occ.first_from "```python" Examples.fenced_x 0 0)
    by (apply first_fromb_correct; vm_compute; reflexivity).
  assert (H2 : Occ.first_from "```" Examples.fenced_x (0 + String.length "```python") 14)
    by (apply first_fromb_correct; vm_compute; reflexivity).
  split; [exact H1|]. split; [exact H2|].
  exact (proj1 (extract_substring_spec Examples.fenced_x "```python" "```") 0%nat 14%nat H1 H2).
Defined.

(** ** The name collector *)

Module Collector.
Import utils AstSpec.

(** Induction on trees, with the property available for every child. *)
Lemma ast_children_ind (P : ast → Prop) :
  (∀ name children, Forall P children → P (FunctionDef name children)) →
  (∀ name children, Forall P children → P (AsyncFunctionDef name children)) →
  (∀ name children, Forall P children → P (ClassDef name children)) →
  (∀ cls children, Forall P children → P (OtherNode cls children)) →
  ∀ t, P t.
Proof.
  intros Hf Ha Hc Ho.
  refine (fix go (t : ast) : P t :=
            let all := fix all (l : list ast) : Forall P l :=
                         match l with
                         | [] => @List.Forall_nil ast P
                         | x :: l' => @List.Forall_cons ast P x l' (go x) (all l')
                         end in
            match t with
            | FunctionDef name children => Hf name children (all children)
            | AsyncFunctionDef name children => Ha name children (all children)
            | ClassDef name children => Hc name children (all children)
            | OtherNode cls children => Ho cls children (all children)
            end).
Qed.

Lemma generic_visit_spec (children : list ast) :
  Forall (λ c, ∀ acc, visit c acc = acc ++ function_defs c) children →
  ∀ acc, fold_left (λ acc child, visit child acc) children acc
         = acc ++ flat_map function_defs children.
Proof.
  induction 1 as [|c children Hc _ IH]; intros acc; simpl.
  - now rewrite app_nil_r.
  - rewrite IH, Hc. now rewrite <- app_assoc.
Qed.

(** The visitor appends to [function_names] exactly the names of the
    tree's function definitions. *)
Lemma visit_spec (t : ast) (acc : list string) :
  visit t acc = acc ++ function_defs t.
Proof.
  revert acc. induction t as [name ch IH | name ch IH | name ch IH | cls ch IH]
    using ast_children_ind; intros acc; simpl.
  - rewrite (generic_visit_spec ch IH). now rewrite <- app_assoc.
  - apply (generic_visit_spec ch IH).
  - apply (generic_visit_spec ch IH).
  - apply (generic_visit_spec ch IH).
Qed.

Lemma no_function_def_spec (t : ast) :
  no_function_def t = true → function_defs t = [].
Proof.
  assert (Hch : ∀ ch,
             Forall (λ c, no_function_def c = true → function_defs c = []) ch →
             forallb no_function_def ch = true → flat_map function_defs ch = []).
  { induction 1 as [|c ch Hc _ IH]; simpl; [reflexivity|].
    intros [H1 H2]%andb_true_iff. now rewrite Hc, IH. }
  induction t using ast_children_ind; simpl; intros Hno;
    try discriminate; now apply Hch.
Qed.

(** The result of [extract_single_function_name] on a source that parses. *)
Lemma extract_parsed `{External} (code : string) (tree : ast) :
  ast_parse code = Ok tree →
  extract_single_function_name code
  = Ok (match function_defs tree with [n] => Some n | _ => None end).
Proof.
  intros Hparse. unfold extract_single_function_name. rewrite Hparse.
  rewrite visit_spec. simpl.
  destruct (function_defs tree) as [|n [|n' l]]; reflexivity.
Qed.

End Collector.

(** C6. On a source that parses, [extract_single_function_name] returns a
    name exactly when one function definition was collected, nested
    definitions counted, and that name is the one collected; in every other
    case it returns [None].  So it returns "foo" for the one-definition
    source, and [None] for the assignment and for the two-definition
    source. *)
Theorem extract_single_function_name_spec `{External} :
  (∀ code tree,
     ast_parse code = Ok tree →
     (∀ n, utils.extract_single_function_name code = Ok (Some n)
           ↔ AstSpec.function_defs tree = [n]) ∧
     (utils.extract_single_function_name code = Ok None
      ↔ length (AstSpec.function_defs tree) ≠ 1%nat)) ∧
  (ast_parse Examples.src_def_foo = Ok Examples.tree_def_foo →
   utils.extract_single_function_name Examples.src_def_foo = Ok (Some "foo")) ∧
  (ast_parse Examples.src_assign = Ok Examples.tree_assign →
   utils.extract_single_function_name Examples.src_assign = Ok None) ∧
  (ast_parse Examples.src_two_defs = Ok Examples.tree_two_defs →
   utils.extract_single_function_name Examples.src_two_defs = Ok None).
Proof.
  split; [|split; [|split]].
  - intros code tree Hparse. rewrite (Collector.extract_parsed code tree Hparse).
    destruct (AstSpec.function_defs tree) as [|m [|m' l]]; simpl; split.
    + split; intros Heq; discriminate.
    + split; [intros _; lia | reflexivity].
    + split; intros Heq; injection Heq as ->; reflexivity.
    + split; [discriminate | intros Hne; now destruct Hne].
    + split; intros Heq; discriminate.
    + split; [intros _; lia | reflexivity].
  - intros Hparse. now rewrite (Collector.extract_parsed _ _ Hparse).
  - intros Hparse. now rewrite (Collector.extract_parsed _ _ Hparse).
  - intros Hparse. now rewrite (Collector.extract_parsed _ _ Hparse).
Qed.

Lemma extract_single_function_name_spec_witness :
  @utils.extract_single_function_name (Examples.scripted []) Examples.src_def_foo
  = Ok (Some "foo") ∧
  @utils.extract_single_function_name (Examples.scripted []) Examples.src_assign
  = Ok None ∧
  @utils.extract_single_function_name (Examples.scripted []) Examples.src_two_defs
  = Ok None.
Proof.
  destruct (@extract_single_function_name_spec (Examples.scripted []))
    as (_ & Hfoo & Hassign & Htwo).
  split; [apply Hfoo; reflexivity|].
  split; [apply Hassign; reflexivity | apply Htwo; reflexivity].
Defined.

(** C10. A source that parses and has no plain [def] anywhere, only
    [async def] definitions, yields [None]: an [AsyncFunctionDef] node is
    visited like a node of any other class and its name is not collected.
    So the source made of one [async def foo] is treated as having no
    function definition. *)
Theorem async_def_not_collected `{External} :
  (∀ code tree,
     ast_parse code = Ok tree →
     AstSpec.no_function_def tree = true →
     utils.extract_single_function_name code = Ok None) ∧
  (∀ name children cls acc,
     utils.visit (AsyncFunctionDef name children) acc
     = utils.visit (OtherNode cls children) acc) ∧
  (ast_parse Examples.src_async_foo = Ok Examples.tree_async_foo →
   AstSpec.async_defs Examples.tree_async_foo = ["foo"] ∧
   utils.extract_single_function_name Examples.src_async_foo = Ok None).
Proof.
  split; [|split].
  - intros code tree Hparse Hno.
    rewrite (Collector.extract_parsed code tree Hparse).
    now rewrite (Collector.no_function_def_spec tree Hno).
  - reflexivity.
  - intros Hparse. split; [reflexivity|].
    now rewrite (Collector.extract_parsed _ _ Hparse).
Qed.

Lemma async_def_not_collected_witness :
  AstSpec.async_defs Examples.tree_async_foo = ["foo"] ∧
  @utils.extract_single_function_name (Examples.scripted []) Examples.src_async_foo
  = Ok None.
Proof.
  destruct (@async_def_not_collected (Examples.scripted [])) as (_ & _ & Hasync).
  apply Hasync. reflexivity.
Defined.

(** ** The generation pipeline *)

Module Pipeline.
Import main.

Lemma log_main_log_main (a b : list (level * string)) (w : World) :
  log_main b (log_main a w) = log_main (a ++ b) w.
Proof. unfold log_main, set_main_log; simpl. now rewrite app_assoc. Qed.

(** [complete] leaves the module logger and the file tree alone. *)
Lemma complete_frame `{External} self msgs model temp w r w1 :
  client.complete self msgs model temp w = (r, w1) →
  main_log w1 = main_log w ∧ root w1 = root w ∧ cwd w1 = cwd w.
Proof.
  unfold client.complete, try_except, bind, client.create, client.logger_info,
    client.logger_error, modify, ret, raise.
  destruct (chat_completions_create _ _) as [a|e]; simpl.
  - intros [= <- <-]. now repeat split.
  - destruct (is_Exception e); simpl; intros [= <- <-]; now repeat split.
Qed.

(** The three ways [generate_python_code] ends once the provider answered. *)
Lemma generate_python_code_answered `{External} msgs self w response w1 :
  client.complete (openai_client self) msgs "gpt-4" (1 # 2) w = (Ok response, w1) →
  let python_script := utils.extract_substring response "```python" "```" in
  generate_python_code msgs (self, w) =
  match utils.extract_single_function_name python_script with
  | Ok None => (Raise (Exn ValueError no_single_function_msg), (self, w1))
  | Ok (Some n) =>
      (Ok {| name := n; content := python_script |},
       (self, log_main [(INFO, "Generated Python function: " +:+ n)] w1))
  | Raise e =>
      if is_Exception e
      then (Ok {| name := sentinel; content := python_script |},
            (self, log_main [(ERROR, "Error extracting function name: " +:+ exn_str e);
                             (ERROR, "Python script: " +:+ python_script);
                             (INFO, "Generated Python function: " +:+ sentinel)] w1))
      else (Raise e, (self, w1))
  end.
Proof.
  intros Hc. unfold generate_python_code, bind, self_, io. simpl. rewrite Hc.
  unfold try_except, of_result.
  destruct (utils.extract_single_function_name _) as [[n|]|e]; simpl; try reflexivity.
  destruct (is_Exception e); [|reflexivity].
  unfold bind, _logger_error, _logger_info, io, modify, ret; simpl.
  unfold log_main, set_main_log; simpl. now rewrite <- !app_assoc.
Qed.

(** When the provider call raises, so does [generate_python_code]. *)
Lemma generate_python_code_failed `{External} msgs self w e w1 :
  client.complete (openai_client self) msgs "gpt-4" (1 # 2) w = (Raise e, w1) →
  generate_python_code msgs (self, w) = (Raise e, (self, w1)).
Proof.
  intros Hc. unfold generate_python_code, bind, self_, io. simpl. now rewrite Hc.
Qed.

(** [generate_python_code] never changes the script it is called on. *)
Lemma generate_python_code_self `{External} msgs self w :
  fst (snd (generate_python_code msgs (self, w))) = self.
Proof.
  destruct (client.complete (openai_client self) msgs "gpt-4" (1 # 2) w) as [[r|e] w1] eqn:Hc.
  - rewrite (generate_python_code_answered _ _ _ _ _ Hc).
    destruct (utils.extract_single_function_name _) as [[n|]|e]; try reflexivity.
    destruct (is_Exception e); reflexivity.
  - now rewrite (generate_python_code_failed _ _ _ _ _ Hc).
Qed.

End Pipeline.

(** C1, as stated, fails: with an answer that does not parse, [ast.parse]
    raises a [SyntaxError] and [generate_python_function] returns normally,
    with the sentinel name. *)
Lemma syntax_error_propagates_counterexample :
  @ast_parse Examples.answers_broken
     (utils.extract_substring (Examples.fence Examples.src_broken) "```python" "```")
  = Raise (Exn SyntaxError "invalid syntax (<unknown>, line 1)") ∧
  fst (@main.generate_python_function Examples.answers_broken Examples.goal0
         (Examples.script0, Examples.world0))
  = Ok {| main.name := "lol"; main.content := Examples.src_broken |} ∧
  fst (@main.generate_python_function Examples.answers_broken Examples.goal0
         (Examples.script0, Examples.world0))
  ≠ Raise (Exn SyntaxError "invalid syntax (<unknown>, line 1)").
Proof.
  split; [vm_compute; reflexivity|].
  split; [vm_compute; reflexivity|].
  vm_compute. discriminate.
Qed.

(** C1, amended. When the generated code fails to parse, the [SyntaxError]
    is caught inside [generate_python_code]: two error records are logged
    (the error, then the script), the sentinel name is substituted, and the
    call returns a [PythonFunction] with that name and the script as
    content.  Nothing is raised to the caller. *)
Theorem syntax_error_is_caught `{External} (msgs : MessagesStack)
    (self : main.PythonFileScript) (w : World) (response : string) (w1 : World) (e : exn) :
  client.complete (main.openai_client self) msgs "gpt-4" (1 # 2) w = (Ok response, w1) →
  ast_parse (utils.extract_substring response "```python" "```") = Raise e →
  exn_cls e = SyntaxError →
  main.generate_python_code msgs (self, w)
  = (Ok {| main.name := main.sentinel;
           main.content := utils.extract_substring response "```python" "```" |},
     (self,
      log_main
        [(ERROR, "Error extracting function name: " +:+ exn_str e);
         (ERROR, "Python script: " +:+ utils.extract_substring response "```python" "```");
         (INFO, "Generated Python function: " +:+ main.sentinel)] w1)).
Proof.
  intros Hc Hparse Hcls.
  rewrite (Pipeline.generate_python_code_answered _ _ _ _ _ Hc).
  unfold utils.extract_single_function_name. rewrite Hparse.
  unfold is_Exception. now rewrite Hcls.
Qed.

Lemma syntax_error_is_caught_witness :
  fst (@main.generate_python_code Examples.answers_broken Examples.msgs0
         (Examples.script0, Examples.world0))
  = Ok {| main.name := "lol"; main.content := Examples.src_broken |}.
Proof.
  rewrite (@syntax_error_is_caught Examples.answers_broken Examples.msgs0
             Examples.script0 Examples.world0
             (Examples.fence Examples.src_broken)
             (snd (@client.complete Examples.answers_broken Examples.wrapper0
                     Examples.msgs0 "gpt-4" (1 # 2) Examples.world0))
             (Exn SyntaxError "invalid syntax (<unknown>, line 1)")
             eq_refl eq_refl eq_refl).
  reflexivity.
Defined.

(** C2, as stated, fails: with an answer that holds an assignment and no
    definition, [generate_python_function] raises [ValueError]; the module
    logger has received nothing and no sentinel name is returned. *)
Lemma sentinel_on_wrong_count_counterexample :
  @utils.extract_single_function_name Examples.answers_assign
     (utils.extract_substring (Examples.fence Examples.src_assign) "```python" "```")
  = Ok None ∧
  fst (@main.generate_python_function Examples.answers_assign Examples.goal0
         (Examples.script0, Examples.world0))
  = Raise (Exn ValueError main.no_single_function_msg) ∧
  main_log (snd (snd (@main.generate_python_function Examples.answers_assign Examples.goal0
                        (Examples.script0, Examples.world0))))
  = [].
Proof.
  split; [vm_compute; reflexivity|].
  split; vm_compute; reflexivity.
Qed.

(** C2, amended. When the generated code parses and the number of function
    definitions collected is not one, [generate_python_code] raises
    [ValueError]: it logs nothing on the module logger and substitutes no
    name. *)
Theorem wrong_count_raises `{External} (msgs : MessagesStack)
    (self : main.PythonFileScript) (w : World) (response : string) (w1 : World) (tree : ast) :
  client.complete (main.openai_client self) msgs "gpt-4" (1 # 2) w = (Ok response, w1) →
  ast_parse (utils.extract_substring response "```python" "```") = Ok tree →
  length (AstSpec.function_defs tree) ≠ 1%nat →
  main.generate_python_code msgs (self, w)
  = (Raise (Exn ValueError main.no_single_function_msg), (self, w1)) ∧
  main_log w1 = main_log w.
Proof.
  intros Hc Hparse Hlen. split.
  - rewrite (Pipeline.generate_python_code_answered _ _ _ _ _ Hc).
    rewrite (Collector.extract_parsed _ _ Hparse).
    destruct (AstSpec.function_defs tree) as [|n [|n' l]]; try reflexivity.
    now destruct Hlen.
  - apply (Pipeline.complete_frame _ _ _ _ _ _ _ Hc).
Qed.

Lemma wrong_count_raises_witness :
  @main.generate_python_code Examples.answers_assign Examples.msgs0
    (Examples.script0, Examples.world0)
  = (Raise (Exn ValueError main.no_single_function_msg),
     (Examples.script0,
      snd (@client.complete Examples.answers_assign Examples.wrapper0
             Examples.msgs0 "gpt-4" (1 # 2) Examples.world0))).
Proof.
  refine (proj1 (@wrong_count_raises Examples.answers_assign Examples.msgs0
                   Examples.script0 Examples.world0
                   (Examples.fence Examples.src_assign) _ Examples.tree_assign
                   eq_refl eq_refl _)).
  vm_compute. discriminate.
Defined.

(** C8. Whenever the name extraction comes back absent, [generate_python_code]
    raises the [ValueError]; and a [PythonFunction] it returns never stands
    for an absent name: its name is the extracted one, or the sentinel put
    in after the extraction raised. *)
Theorem absent_name_raises `{External} (msgs : MessagesStack)
    (self : main.PythonFileScript) (w : World) :
  (∀ response w1,
     client.complete (main.openai_client self) msgs "gpt-4" (1 # 2) w = (Ok response, w1) →
     utils.extract_single_function_name (utils.extract_substring response "```python" "```")
     = Ok None →
     main.generate_python_code msgs (self, w)
     = (Raise (Exn ValueError main.no_single_function_msg), (self, w1))) ∧
  (∀ f s,
     main.generate_python_code msgs (self, w) = (Ok f, s) →
     ∃ response w1,
       client.complete (main.openai_client self) msgs "gpt-4" (1 # 2) w = (Ok response, w1) ∧
       main.content f = utils.extract_substring response "```python" "```" ∧
       (utils.extract_single_function_name (main.content f) = Ok (Some (main.name f)) ∨
        ∃ e, utils.extract_single_function_name (main.content f) = Raise e ∧
             is_Exception e = true ∧ main.name f = main.sentinel)).
Proof.
  split.
  - intros response w1 Hc Hnone.
    rewrite (Pipeline.generate_python_code_answered _ _ _ _ _ Hc). now rewrite Hnone.
  - intros f s Hgen.
    destruct (client.complete (main.openai_client self) msgs "gpt-4" (1 # 2) w)
      as [[response|e] w1] eqn:Hc.
    + exists response, w1. split; [reflexivity|].
      rewrite (Pipeline.generate_python_code_answered _ _ _ _ _ Hc) in Hgen.
      destruct (utils.extract_single_function_name _) as [[n|]|e] eqn:Hx.
      * injection Hgen as <- _. simpl. split; [reflexivity|]. now left.
      * discriminate.
      * destruct (is_Exception e) eqn:He; [|discriminate].
        injection Hgen as <- _. simpl. split; [reflexivity|].
        right. now exists e.
    + rewrite (Pipeline.generate_python_code_failed _ _ _ _ _ Hc) in Hgen. discriminate.
Qed.

Lemma absent_name_raises_witness :
  fst (@main.generate_python_code Examples.answers_assign Examples.msgs0
         (Examples.script0, Examples.world0))
  = Raise (Exn ValueError main.no_single_function_msg).
Proof.
  rewrite (proj1 (@absent_name_raises Examples.answers_assign Examples.msgs0
                    Examples.script0 Examples.world0)
             (Examples.fence Examples.src_assign)
             (snd (@client.complete Examples.answers_assign Examples.wrapper0
                     Examples.msgs0 "gpt-4" (1 # 2) Examples.world0))
             eq_refl eq_refl).
  reflexivity.
Defined.

(** C7. If the function is generated and the generation of its test then
    raises, [add_function] raises the same exception and the script's list
    of suites is as it was: no suite is appended. *)
Theorem add_function_no_partial_suite `{External} (function_goal script_package_name : string)
    (self : main.PythonFileScript) (w : World)
    (python_function : main.PythonFunction) (s1 s2 : main.PythonFileScript * World) (e : exn) :
  main.generate_python_function function_goal (self, w) = (Ok python_function, s1) →
  main.generate_python_test python_function script_package_name s1 = (Raise e, s2) →
  main.add_function function_goal script_package_name (self, w) = (Raise e, s2) ∧
  main.functions (fst s2) = main.functions self.
Proof.
  intros Hf Ht. split.
  - unfold main.add_function, bind. now rewrite Hf, Ht.
  - assert (H1 : fst s1 = self).
    { pose proof (Pipeline.generate_python_code_self
                    [main.system_message;
                     main.user_message
                       ("Write a Python function to " +:+ function_goal
                        +:+ ". The code must be typed. The answer must only be the python code and nothing else.")]
                    self w) as Hs.
      unfold main.generate_python_function in Hf. now rewrite Hf in Hs. }
    destruct s1 as [self1 w1]. simpl in H1. subst self1.
    unfold main.generate_python_test, bind, self_ in Ht. simpl in Ht.
    match type of Ht with
    | main.generate_python_code ?m _ = _ =>
        pose proof (Pipeline.generate_python_code_self m self w1) as Hs
    end.
    rewrite Ht in Hs. simpl in Hs. now rewrite Hs.
Qed.

Lemma add_function_no_partial_suite_witness :
  fst (@main.add_function Examples.answers_once Examples.goal0 "testpackage"
         (Examples.script0, Examples.world0))
  = Raise (Exn APIError "Connection error.") ∧
  main.functions
    (fst (snd (@main.add_function Examples.answers_once Examples.goal0 "testpackage"
                 (Examples.script0, Examples.world0))))
  = [].
Proof.
  destruct (@add_function_no_partial_suite Examples.answers_once
              Examples.goal0 "testpackage" Examples.script0 Examples.world0
              {| main.name := "foo"; main.content := Examples.src_def_foo |}
              (@main.generate_python_function Examples.answers_once Examples.goal0
                 (Examples.script0, Examples.world0)).2
              (@main.generate_python_test Examples.answers_once
                 {| main.name := "foo"; main.content := Examples.src_def_foo |} "testpackage"
                 (@main.generate_python_function Examples.answers_once Examples.goal0
                    (Examples.script0, Examples.world0)).2).2
              (Exn APIError "Connection error.")
              eq_refl eq_refl) as [Hrun Hsame].
  split.
  - now rewrite Hrun.
  - rewrite Hrun. exact Hsame.
Defined.

(** ** Facts on path names *)

Module PathFacts.
Import os_path PyStrFacts.

#[local] Arguments append !s1 s2 : simpl nomatch.

Lemma split_sep_nonempty (s : string) : ∃ h t, split_sep s = h :: t.
Proof.
  induction s as [|c s (h & t & IH)]; simpl; [now eexists _, _|].
  destruct (is_sep c); [now eexists _, _|]. rewrite IH. now eexists _, _.
Qed.

Lemma split_sep_app (a b : string) :
  split_sep (a +:+ String "/" b) = split_sep a ++ split_sep b.
Proof.
  induction a as [|c a IH]; simpl; [reflexivity|].
  destruct (is_sep c); [now rewrite IH|].
  rewrite IH. destruct (split_sep_nonempty a) as (h & t & ->). reflexivity.
Qed.

Lemma endswith_sep_inv (a : string) :
  endswith_sep a = true → ∃ a0, a = a0 +:+ "/".
Proof.
  induction a as [|c a IH]; simpl; [discriminate|].
  destruct a as [|d a].
  - unfold is_sep. intros Hc%Ascii.eqb_eq. subst c. now exists EmptyString.
  - intros Ha. destruct (IH Ha) as [a0 Ha0]. exists (String c a0).
    simpl. now rewrite <- Ha0.
Qed.

Lemma startswith_sep_app (a b : string) :
  is_empty a = false → startswith_sep (a +:+ b) = startswith_sep a.
Proof. destruct a; [discriminate | reflexivity]. Qed.

Lemma is_empty_app (a b : string) :
  is_empty a = false → is_empty (a +:+ b) = false.
Proof. destruct a; [discriminate | reflexivity]. Qed.

(** The named components of a joined path. *)
Lemma pieces_join2 (a b : string) :
  is_empty a = false → startswith_sep b = false →
  List.filter names_entry (split_sep (join2 a b))
  = List.filter names_entry (split_sep a) ++ List.filter names_entry (split_sep b).
Proof.
  intros Ha Hb. unfold join2. rewrite Hb, Ha. simpl.
  destruct (endswith_sep a) eqn:Hend.
  - destruct (endswith_sep_inv a Hend) as [a0 ->].
    rewrite app_assoc. change ("/" +:+ b) with (String "/" b).
    change ("/"%string) with (String "/" EmptyString).
    rewrite !split_sep_app, !List.filter_app. simpl. now rewrite app_nil_r.
  - change ("/" +:+ b) with (String "/" b).
    rewrite split_sep_app. apply List.filter_app.
Qed.

Lemma join2_nonempty (a b : string) :
  is_empty a = false → startswith_sep b = false →
  is_empty (join2 a b) = false ∧ startswith_sep (join2 a b) = startswith_sep a.
Proof.
  intros Ha Hb. unfold join2. rewrite Hb, Ha. simpl.
  destruct (endswith_sep a);
    split; (apply is_empty_app || apply startswith_sep_app); exact Ha.
Qed.

Lemma split_sep_no_sep (s : string) : has_sep s = false → split_sep s = [s].
Proof.
  induction s as [|c s IH]; simpl; [reflexivity|].
  intros [Hc Hs]%orb_false_iff. rewrite Hc, (IH Hs). reflexivity.
Qed.

Lemma split_sep_single (s c : string) : split_sep s = [c] → c = s ∧ has_sep s = false.
Proof.
  revert c; induction s as [|x s IH]; intros c; simpl.
  - now intros [= <-].
  - destruct (is_sep x) eqn:Hx.
    + destruct (split_sep_nonempty s) as (h & t & ->). discriminate.
    + destruct (split_sep_nonempty s) as (h & t & Hs). rewrite Hs in IH |- *.
      destruct t as [|h' t]; [|discriminate].
      intros [= <-]. destruct (IH h eq_refl) as [-> Hno]. now split.
Qed.

Lemma plain_name_inv (n : string) :
  plain_name n = true →
  split_sep n = [n] ∧ names_entry n = true ∧ String.eqb n ".." = false ∧
  startswith_sep n = false.
Proof.
  unfold plain_name. destruct (split_sep n) as [|c [|c' t]] eqn:Hs; try discriminate.
  destruct (split_sep_single n c Hs) as [-> Hno].
  intros [Hn Hdd%negb_true_iff]%andb_true_iff. repeat split; try assumption.
  destruct n as [|x n]; [reflexivity|]. simpl in Hno |- *.
  now apply orb_false_iff in Hno.
Qed.

Lemma plain_name_intro (n : string) :
  has_sep n = false → is_empty n = false → n ≠ "." → n ≠ ".." → plain_name n = true.
Proof.
  intros Hno He Hd Hdd. unfold plain_name, names_entry.
  rewrite (split_sep_no_sep n Hno), He.
  apply String.eqb_neq in Hd, Hdd. now rewrite Hd, Hdd.
Qed.

Lemma has_sep_app (a b : string) : has_sep (a +:+ b) = has_sep a || has_sep b.
Proof. induction a as [|c a IH]; simpl; [reflexivity | now rewrite IH, orb_assoc]. Qed.

(** A separator-free stem with an extension of three characters is a
    plain name. *)
Lemma plain_name_stem (pre m ext : string) :
  has_sep pre = false → has_sep m = false → has_sep ext = false →
  (3 ≤ String.length ext)%nat →
  plain_name (pre +:+ m +:+ ext) = true.
Proof.
  intros Hpre Hm Hext Hlen.
  assert (Hl : (3 ≤ String.length (pre +:+ m +:+ ext))%nat)
    by (rewrite !length_app; lia).
  apply plain_name_intro.
  - now rewrite !has_sep_app, Hpre, Hm, Hext.
  - destruct (pre +:+ m +:+ ext); [simpl in Hl; lia | reflexivity].
  - intros Heq. rewrite Heq in Hl. simpl in Hl. lia.
  - intros Heq. rewrite Heq in Hl. simpl in Hl. lia.
Qed.

Lemma all_tame_app (a b : string) : all_tame (a +:+ b) = all_tame a && all_tame b.
Proof. induction a as [|c a IH]; simpl; [reflexivity | now rewrite IH, andb_assoc]. Qed.

Lemma all_tame_plain (s : string) :
  all_tame s = true → is_empty s = false → plain_name s = true.
Proof.
  intros Ht He. apply plain_name_intro; [|exact He| |].
  - induction s as [|c s IH]; simpl in *; [reflexivity|].
    apply andb_true_iff in Ht as [[Hc _]%andb_true_iff Hs].
    apply negb_true_iff in Hc. rewrite Hc. simpl.
    destruct s; [reflexivity | now apply IH].
  - intros ->. discriminate.
  - intros ->. discriminate.
Qed.

(** How a joined path resolves. *)
Lemma resolve_join2 (cwd : list string) (a b : string) (p : list string) :
  resolve cwd a = Some p → plain_name b = true →
  resolve cwd (join2 a b) = Some (p ++ [b]).
Proof.
  intros Ha Hb. destruct (plain_name_inv b Hb) as (Hsplit & Hname & Hdd & Hstart).
  unfold resolve in Ha |- *.
  destruct (is_empty a) eqn:He; [discriminate|].
  destruct (join2_nonempty a b He Hstart) as [-> ->].
  rewrite (pieces_join2 a b He Hstart), Hsplit. cbn [List.filter]. rewrite Hname.
  rewrite existsb_app. cbn [existsb]. rewrite (String.eqb_sym ".." b), Hdd.
  destruct (existsb (String.eqb "..") (List.filter names_entry (split_sep a)));
    [discriminate|].
  cbn [orb]. injection Ha as <-. now rewrite <- List.app_assoc.
Qed.

Lemma resolve_join_1 (cwd : list string) (a b : string) (p : list string) :
  resolve cwd a = Some p → plain_name b = true →
  resolve cwd (join a [b]) = Some (p ++ [b]).
Proof. apply resolve_join2. Qed.

Lemma resolve_join_2 (cwd : list string) (a b c : string) (p : list string) :
  resolve cwd a = Some p → plain_name b = true → plain_name c = true →
  resolve cwd (join a [b; c]) = Some ((p ++ [b]) ++ [c]).
Proof.
  intros Ha Hb Hc. simpl. apply resolve_join2; [|exact Hc].
  now apply resolve_join2.
Qed.

End PathFacts.

(** ** Facts on the file tree *)

Module TreeFacts.
Import fstree.

Lemma lookup_app (p q : list string) (n : node) :
  lookup_node (p ++ q) n = lookup_node p n ≫= lookup_node q.
Proof.
  revert n; induction p as [|c p IH]; intros n; simpl; [reflexivity|].
  destruct n as [s|m]; [reflexivity|].
  destruct (m !! c); [apply IH | reflexivity].
Qed.

Lemma lookup_prefix_is_Some (p q : list string) (n : node) :
  p `prefix_of` q → is_Some (lookup_node q n) → is_Some (lookup_node p n).
Proof.
  intros [k ->]. rewrite lookup_app.
  destruct (lookup_node p n); [eauto | intros [x Hx]; discriminate].
Qed.

Lemma set_at_file (p : list string) (v : option node) (s : string) :
  set_at p v (File s) = File s.
Proof. destruct p; reflexivity. Qed.

Lemma set_at_single (c : string) (v : option node) (m : gmap string node) :
  set_at [c] v (Dir m)
  = Dir (match v with Some x => <[c := x]> m | None => delete c m end).
Proof. reflexivity. Qed.

Lemma set_at_deeper (c : string) (p : list string) (v : option node)
    (m : gmap string node) :
  p ≠ [] →
  set_at (c :: p) v (Dir m)
  = match m !! c with
    | Some ch => Dir (<[c := set_at p v ch]> m)
    | None => Dir m
    end.
Proof. destruct p; [contradiction | reflexivity]. Qed.

(** Looking at a place above the one that was set. *)
Lemma lookup_set_at_below (q p : list string) (v : option node) (n : node) :
  p ≠ [] →
  lookup_node q (set_at (q ++ p) v n) = set_at p v <$> lookup_node q n.
Proof.
  intros Hp. revert n; induction q as [|c q IH]; intros n; [reflexivity|].
  destruct n as [s|m].
  - now rewrite set_at_file.
  - change ((c :: q) ++ p) with (c :: (q ++ p)).
    rewrite set_at_deeper by (destruct q; [exact Hp | discriminate]).
    simpl. destruct (m !! c) as [ch|] eqn:Hc; simpl.
    + rewrite lookup_insert_eq. apply IH.
    + now rewrite Hc.
Qed.

(** Looking at a place that is neither above nor below. *)
Lemma lookup_set_at_unrelated (p q : list string) (v : option node) (n : node) :
  unrelated p q → lookup_node q (set_at p v n) = lookup_node q n.
Proof.
  revert q n; induction p as [|c p IH]; intros q n [Hpq Hqp].
  - destruct Hpq. apply prefix_nil.
  - destruct q as [|d q]; [destruct Hqp; apply prefix_nil|].
    destruct n as [s|m]; [now rewrite set_at_file|].
    destruct (decide (c = d)) as [<-|Hne].
    + assert (Hp : p ≠ []).
      { intros ->. apply Hpq. apply prefix_cons, prefix_nil. }
      rewrite set_at_deeper by exact Hp.
      destruct (m !! c) as [ch|] eqn:Hc; [|reflexivity].
      simpl. rewrite lookup_insert_eq, Hc. apply IH.
      split; intros Hpre; [apply Hpq | apply Hqp]; now apply prefix_cons.
    + destruct p as [|c' p].
      * rewrite set_at_single. simpl.
        destruct v; [now rewrite lookup_insert_ne | now rewrite lookup_delete_ne].
      * rewrite set_at_deeper by discriminate.
        destruct (m !! c) as [ch|] eqn:Hc; [|reflexivity].
        simpl. now rewrite lookup_insert_ne.
Qed.

Lemma set_at_set_at (p : list string) (v1 v2 : option node) (n : node) :
  set_at p v2 (set_at p v1 n) = set_at p v2 n.
Proof.
  revert n; induction p as [|c p IH]; intros n; [reflexivity|].
  destruct n as [s|m]; [now rewrite !set_at_file|].
  destruct p as [|c' p].
  - rewrite !set_at_single. f_equal.
    destruct v1, v2;
      [apply insert_insert_eq | apply delete_insert_eq
      | apply insert_delete_eq | apply delete_delete_eq].
  - rewrite (set_at_deeper c (c' :: p) v1) by discriminate.
    rewrite (set_at_deeper c (c' :: p) v2 m) by discriminate.
    destruct (m !! c) as [ch|] eqn:Hc.
    + rewrite set_at_deeper by discriminate.
      rewrite lookup_insert_eq, insert_insert_eq. now rewrite IH.
    + rewrite set_at_deeper by discriminate. now rewrite Hc.
Qed.

Lemma set_at_keeps_dir (p : list string) (v : option node) (m : gmap string node) :
  p ≠ [] → ∃ m', set_at p v (Dir m) = Dir m'.
Proof.
  destruct p as [|c p]; [contradiction|]. intros _.
  destruct p as [|c' p].
  - rewrite set_at_single. eauto.
  - rewrite set_at_deeper by discriminate. destruct (m !! c); eauto.
Qed.

(** The entry that was set, seen from the directory holding it. *)
Lemma lookup_set_at_parent (d : list string) (c : string) (v : option node)
    (n : node) (m : gmap string node) :
  lookup_node d n = Some (Dir m) →
  lookup_node d (set_at (d ++ [c]) v n)
  = Some (Dir (match v with Some x => <[c := x]> m | None => delete c m end)).
Proof.
  intros Hd. rewrite lookup_set_at_below by discriminate. now rewrite Hd.
Qed.

Lemma lookup_child (d : list string) (c : string) (n : node) (m : gmap string node) :
  lookup_node d n = Some (Dir m) → lookup_node (d ++ [c]) n = m !! c.
Proof.
  intros Hd. rewrite lookup_app, Hd. simpl. now destruct (m !! c).
Qed.

(** The entry that was set, seen at its own place. *)
Lemma lookup_set_at_eq (d : list string) (c : string) (v : option node)
    (n : node) (m : gmap string node) :
  lookup_node d n = Some (Dir m) →
  lookup_node (d ++ [c]) (set_at (d ++ [c]) v n) = v.
Proof.
  intros Hd. rewrite (lookup_child d c _ _ (lookup_set_at_parent d c v n m Hd)).
  destruct v; [apply lookup_insert_eq | apply lookup_delete_eq].
Qed.

(** A directory stays one unless something is set at or above it. *)
Lemma is_dir_set_at (p d : list string) (v : option node) (n : node) :
  ¬ p `prefix_of` d → is_dir d n = true → is_dir d (set_at p v n) = true.
Proof.
  intros Hpd. unfold is_dir.
  destruct (lookup_node d n) as [[s|m]|] eqn:Hd; try discriminate. intros _.
  destruct (decide (d `prefix_of` p)) as [[k ->]|Hdp].
  - assert (Hk : k ≠ []).
    { intros ->. apply Hpd. now rewrite app_nil_r. }
    rewrite lookup_set_at_below by exact Hk. rewrite Hd. simpl.
    now destruct (set_at_keeps_dir k v m Hk) as [m' ->].
  - rewrite lookup_set_at_unrelated by (now split). now rewrite Hd.
Qed.

Lemma unrelated_sym (p q : list string) : unrelated p q → unrelated q p.
Proof. intros [H1 H2]. now split. Qed.

Lemma unrelated_app_l (p q k : list string) : unrelated p q → unrelated (p ++ k) q.
Proof.
  intros [Hpq Hqp]. split.
  - intros Hpre. apply Hpq. now apply prefix_app_l in Hpre.
  - intros Hpre.
    destruct (prefix_weak_total p q (p ++ k)) as [H|H];
      [now apply prefix_app_r | exact Hpre | now apply Hpq | now apply Hqp].
Qed.

Lemma unrelated_siblings (d : list string) (a b : string) :
  a ≠ b → unrelated (d ++ [a]) (d ++ [b]).
Proof.
  intros Hne. split; intros Hpre;
    apply prefix_length_eq in Hpre; try (rewrite !length_app; simpl; lia);
    apply app_inv_head in Hpre; congruence.
Qed.

Lemma split_last_app (d : list string) (c : string) :
  split_last (d ++ [c]) = Some (d, c).
Proof.
  induction d as [|x d IH]; [reflexivity|].
  change ((x :: d) ++ [c]) with (x :: (d ++ [c])).
  simpl. rewrite IH. destruct (d ++ [c]) eqn:E; [destruct d; discriminate | reflexivity].
Qed.

(** [mkdirs] below an existing directory adds one empty directory. *)
Lemma mkdirs_child (d : list string) (c : string) (n : node) (m : gmap string node) :
  lookup_node d n = Some (Dir m) → m !! c = None →
  mkdirs (d ++ [c]) n = Some (set_at (d ++ [c]) (Some (Dir ∅)) n).
Proof.
  revert n; induction d as [|x d IH]; intros n Hd Hc.
  - injection Hd as ->. simpl. now rewrite Hc.
  - destruct n as [s|m0]; [discriminate|]. simpl in Hd.
    destruct (m0 !! x) as [ch|] eqn:Hx; [|discriminate].
    change ((x :: d) ++ [c]) with (x :: (d ++ [c])).
    rewrite set_at_deeper by (destruct d; discriminate).
    simpl. rewrite Hx. simpl. now rewrite (IH ch Hd Hc).
Qed.

(** [mkdirs] succeeds when no regular file is in the way. *)
Lemma mkdirs_is_Some (p : list string) (n : node) :
  (∀ q s, q `prefix_of` p → lookup_node q n ≠ Some (File s)) →
  is_Some (mkdirs p n).
Proof.
  revert n; induction p as [|c p IH]; intros n Hfree.
  - destruct n as [s|m]; [|simpl; eauto].
    now destruct (Hfree [] s (prefix_nil _)).
  - destruct n as [s|m]; [now destruct (Hfree [] s (prefix_nil _))|].
    simpl.
    destruct (IH (default (Dir ∅) (m !! c))) as [ch Hch]; [|rewrite Hch; eauto].
    intros q s Hq. destruct (m !! c) as [ch|] eqn:Hc; simpl.
    + intros Hl. apply (Hfree (c :: q) s); [now apply prefix_cons|].
      simpl. now rewrite Hc.
    + destruct q; [discriminate|]. simpl. now rewrite lookup_empty.
Qed.

(** What [mkdirs] made is an empty directory. *)
Lemma mkdirs_lookup_new (p : list string) (n r : node) :
  mkdirs p n = Some r →
  lookup_node p n = None ∨ lookup_node p n = Some (Dir ∅) →
  lookup_node p r = Some (Dir ∅).
Proof.
  revert n r; induction p as [|c p IH]; intros n r Hmk Hnew.
  - destruct Hnew as [Hnew|Hnew]; [discriminate|].
    injection Hnew as ->. simpl in Hmk. now injection Hmk as <-.
  - destruct n as [s|m]; [discriminate|]. simpl in Hmk, Hnew.
    destruct (mkdirs p (default (Dir ∅) (m !! c))) as [ch'|] eqn:Hch; [|discriminate].
    injection Hmk as <-. simpl. rewrite lookup_insert_eq.
    apply (IH _ _ Hch). destruct (m !! c) as [ch|]; simpl; [exact Hnew|].
    destruct p; [now right | left; simpl; now rewrite lookup_empty].
Qed.

(** [mkdirs] changes nothing at places that are neither above nor below. *)
Lemma mkdirs_lookup_unrelated (p q : list string) (n r : node) :
  mkdirs p n = Some r → unrelated p q → lookup_node q r = lookup_node q n.
Proof.
  revert q n r; induction p as [|c p IH]; intros q n r Hmk [Hpq Hqp].
  - destruct Hpq. apply prefix_nil.
  - destruct q as [|d q]; [destruct Hqp; apply prefix_nil|].
    destruct n as [s|m]; [discriminate|]. simpl in Hmk.
    destruct (mkdirs p (default (Dir ∅) (m !! c))) as [ch'|] eqn:Hch; [|discriminate].
    injection Hmk as <-. simpl.
    destruct (decide (c = d)) as [<-|Hne]; [|now rewrite lookup_insert_ne].
    rewrite lookup_insert_eq.
    assert (Hun : unrelated p q).
    { split; intros Hpre; [apply Hpq | apply Hqp]; now apply prefix_cons. }
    rewrite (IH _ _ _ Hch Hun).
    destruct (m !! c) as [ch|]; simpl; [reflexivity|].
    destruct q as [|d q]; [|simpl; now rewrite lookup_empty].
    destruct Hqp. apply prefix_cons, prefix_nil.
Qed.

End TreeFacts.

(** ** Running the calls of the operating system *)

Module OsFacts.
Import os_path fstree TreeFacts.

Lemma bind_ok {S A B} (m : M S A) (k : A → M S B) (s s' : S) (a : A) :
  m s = (Ok a, s') → bind m k s = k a s'.
Proof. intros Hm. unfold bind. now rewrite Hm. Qed.

Lemma bind_io_ok {Self A B} (m : M World A) (k : A → Method Self B)
    (self : Self) (w w' : World) (a : A) :
  m w = (Ok a, w') → bind (io m) k (self, w) = k a (self, w').
Proof. intros Hm. unfold bind, io. simpl. now rewrite Hm. Qed.

Lemma for_each_io {Self A} (l : list A) (f : A → M World unit) (self : Self) (w : World) :
  for_each l (λ x, io (f x)) (self, w)
  = (fst (for_each l f w), (self, snd (for_each l f w))).
Proof.
  revert w; induction l as [|x l IH]; intros w; [reflexivity|].
  cbn [for_each]. unfold bind, io at 1. cbn [snd fst].
  destruct (f x w) as [[[]|e] w1]; [apply IH | reflexivity].
Qed.

Lemma open_w_run (path : string) (w : World) (d : list string) (c : string) :
  resolve (cwd w) path = Some (d ++ [c]) →
  is_dir d (root w) = true → is_dir (d ++ [c]) (root w) = false →
  os.open_w path w
  = (Ok (d ++ [c]), set_root (set_at (d ++ [c]) (Some (File EmptyString)) (root w)) w).
Proof.
  intros Hres Hd Hf. unfold os.open_w. rewrite Hres, split_last_app.
  unfold is_dir in Hd, Hf.
  destruct (lookup_node d (root w)) as [[s|m]|]; try discriminate.
  destruct (lookup_node (d ++ [c]) (root w)) as [[s|m']|]; try discriminate; reflexivity.
Qed.

Lemma write_run (f : list string) (data : string) (w : World) (c : string) :
  lookup_node f (root w) = Some (File c) →
  os.write f data w
  = (Ok tt, set_root (set_at f (Some (File (c +:+ data))) (root w)) w).
Proof. intros Hf. unfold os.write. now rewrite Hf. Qed.

(** Writing a list of texts to a file that holds [c0] leaves it holding
    [c0] followed by the texts. *)
Lemma write_all {A} (g : A → string) (l : list A) (d : list string) (c : string)
    (r0 : node) (w0 : World) (c0 : string) :
  is_dir d r0 = true →
  for_each l (λ x, os.write (d ++ [c]) (g x))
    (set_root (set_at (d ++ [c]) (Some (File c0)) r0) w0)
  = (Ok tt,
     set_root (set_at (d ++ [c]) (Some (File (c0 +:+ joined (map g l)))) r0) w0).
Proof.
  intros Hd. unfold is_dir in Hd.
  destruct (lookup_node d r0) as [[s|m]|] eqn:Hl; try discriminate. clear Hd.
  revert c0; induction l as [|x l IH]; intros c0.
  - simpl. now rewrite PyStrFacts.app_empty_r.
  - simpl. erewrite bind_ok; cycle 1.
    { apply write_run. simpl. apply (lookup_set_at_eq d c _ r0 m Hl). }
    simpl. rewrite set_at_set_at.
    change (set_root ?r (set_root _ w0)) with (set_root r w0).
    rewrite IH. now rewrite PyStrFacts.app_assoc.
Qed.

Lemma prefix_longer (p q : list string) :
  (length q < length p)%nat → ¬ p `prefix_of` q.
Proof. intros Hlen Hpre%prefix_length. lia. Qed.

Lemma unrelated_same_length (p q : list string) :
  length p = length q → p ≠ q → unrelated p q.
Proof.
  intros Hlen Hne. split; intros Hpre; apply prefix_length_eq in Hpre;
    try lia; congruence.
Qed.

End OsFacts.

(** ** [write_to_file] and [write_files] *)

Module WriteFiles.
Import os_path fstree TreeFacts OsFacts PathFacts main.

(** The two places a script is written to. *)
Lemma module_path (cwd_ : list string) (workspace package_name m : string)
    (W : list string) :
  resolve cwd_ workspace = Some W → plain_name package_name = true →
  has_sep m = false →
  resolve cwd_ (join workspace [package_name; m +:+ ".py"])
  = Some ((W ++ [package_name]) ++ [m +:+ ".py"]).
Proof.
  intros HW Hpkg Hm. apply resolve_join_2; [exact HW | exact Hpkg |].
  apply (plain_name_stem EmptyString m ".py"); [reflexivity | exact Hm | reflexivity |].
  simpl. lia.
Qed.

Lemma test_path (cwd_ : list string) (workspace m : string) (W : list string) :
  resolve cwd_ workspace = Some W → has_sep m = false →
  resolve cwd_ (join workspace ["tests"; "test_" +:+ m +:+ ".py"])
  = Some ((W ++ ["tests"]) ++ ["test_" +:+ m +:+ ".py"]).
Proof.
  intros HW Hm. apply resolve_join_2; [exact HW | reflexivity |].
  apply (plain_name_stem "test_" m ".py"); [reflexivity | exact Hm | reflexivity |].
  simpl. lia.
Qed.

Lemma module_test_unrelated (W : list string) (package_name m : string) :
  unrelated ((W ++ [package_name]) ++ [m +:+ ".py"])
            ((W ++ ["tests"]) ++ ["test_" +:+ m +:+ ".py"]).
Proof.
  apply unrelated_same_length; [rewrite !length_app; reflexivity|].
  intros Heq.
  assert (Hlast : m +:+ ".py" = "test_" +:+ m +:+ ".py").
  { apply (f_equal (λ l, List.last l EmptyString)) in Heq.
    now rewrite !List.last_last in Heq. }
  apply (f_equal String.length) in Hlast.
  rewrite !PyStrFacts.length_app in Hlast. simpl in Hlast. lia.
Qed.

(** One script written to a workspace whose package and test directories
    exist: both files hold the script's texts, and the workspace is as
    fit for the next script as it was. *)
Lemma write_to_file_run (workspace package_name : string) (self : PythonFileScript)
    (w : World) (W : list string) :
  resolve (cwd w) workspace = Some W →
  plain_name package_name = true →
  has_sep (module_name self) = false →
  is_dir (W ++ [package_name]) (root w) = true →
  is_dir (W ++ ["tests"]) (root w) = true →
  is_dir ((W ++ [package_name]) ++ [module_name self +:+ ".py"]) (root w) = false →
  is_dir ((W ++ ["tests"]) ++ ["test_" +:+ module_name self +:+ ".py"]) (root w) = false →
  ∃ w',
    write_to_file workspace package_name (self, w) = (Ok tt, (self, w')) ∧
    read_file ((W ++ [package_name]) ++ [module_name self +:+ ".py"]) (root w')
    = Some (joined (map (λ suite, content (function suite)) (functions self))) ∧
    read_file ((W ++ ["tests"]) ++ ["test_" +:+ module_name self +:+ ".py"]) (root w')
    = Some (joined (map (λ suite, content (test suite)) (functions self))) ∧
    cwd w' = cwd w ∧
    is_dir (W ++ [package_name]) (root w') = true ∧
    is_dir (W ++ ["tests"]) (root w') = true.
Proof.
  intros HW Hpkg Hm HP HT HMo HTe.
  set (P := W ++ [package_name]) in *. set (T0 := W ++ ["tests"]) in *.
  set (mpy := module_name self +:+ ".py") in *.
  set (tpy := "test_" +:+ module_name self +:+ ".py") in *.
  pose proof (module_test_unrelated W package_name (module_name self)) as Hun.
  fold P T0 mpy tpy in Hun.
  set (r2 := set_at (P ++ [mpy])
               (Some (File (joined (map (λ suite, content (function suite)) (functions self)))))
               (root w)).
  set (r4 := set_at (T0 ++ [tpy])
               (Some (File (joined (map (λ suite, content (test suite)) (functions self)))))
               r2).
  assert (HT2 : is_dir T0 r2 = true).
  { apply is_dir_set_at; [|exact HT].
    apply prefix_longer. unfold P, T0. rewrite !length_app. simpl. lia. }
  assert (HTe2 : is_dir (T0 ++ [tpy]) r2 = false).
  { unfold is_dir, r2. rewrite lookup_set_at_unrelated by exact Hun. exact HTe. }
  exists (set_root r4 w). split; [|split; [|split; [|split; [|split]]]].
  - unfold write_to_file.
    rewrite (bind_ok self_ _ (self, w) (self, w) self eq_refl).
    erewrite bind_io_ok; cycle 1.
    { apply (open_w_run _ w P mpy); [|exact HP | exact HMo].
      now apply module_path. }
    erewrite bind_ok; cycle 1.
    { rewrite for_each_io.
      rewrite (write_all (λ suite, content (function suite)) (functions self)
                 P mpy (root w) w EmptyString HP).
      reflexivity. }
    fold r2.
    erewrite bind_io_ok; cycle 1.
    { apply (open_w_run _ (set_root r2 w) T0 tpy); [|exact HT2 | exact HTe2].
      now apply test_path. }
    rewrite for_each_io.
    change (set_root ?r (set_root r2 w)) with (set_root r w).
    change (root (set_root r2 w)) with r2.
    rewrite (write_all (λ suite, content (test suite)) (functions self)
               T0 tpy r2 w EmptyString HT2).
    reflexivity.
  - unfold read_file. simpl. unfold r4.
    rewrite lookup_set_at_unrelated by (apply unrelated_sym, Hun).
    unfold is_dir in HP. destruct (lookup_node P (root w)) as [[s|m]|] eqn:HlP;
      try discriminate.
    unfold r2. now rewrite (lookup_set_at_eq P mpy _ _ m HlP).
  - unfold read_file. simpl. unfold r4.
    unfold is_dir in HT2. destruct (lookup_node T0 r2) as [[s|m]|] eqn:HlT;
      try discriminate.
    now rewrite (lookup_set_at_eq T0 tpy _ _ m HlT).
  - reflexivity.
  - simpl. unfold r4, r2. apply is_dir_set_at; [|apply is_dir_set_at; [|exact HP]];
      apply prefix_longer; unfold P, T0; rewrite !length_app; simpl; lia.
  - simpl. unfold r4. apply is_dir_set_at; [|exact HT2].
    apply prefix_longer; unfold P, T0; rewrite !length_app; simpl; lia.
Qed.

End WriteFiles.

(** C3. A script written by [write_to_file] into a workspace whose package
    and test directories exist: the module file, read back, holds the
    function texts of the script's suites in insertion order with nothing
    between them, and the test file holds the test texts likewise. *)
Theorem write_to_file_roundtrip (workspace package_name : string)
    (self : main.PythonFileScript) (w : World) (W : list string) :
  os_path.resolve (cwd w) workspace = Some W →
  os_path.plain_name package_name = true →
  os_path.has_sep (main.module_name self) = false →
  fstree.is_dir (W ++ [package_name]) (root w) = true →
  fstree.is_dir (W ++ ["tests"]) (root w) = true →
  fstree.is_dir ((W ++ [package_name]) ++ [main.module_name self +:+ ".py"]) (root w) = false →
  fstree.is_dir ((W ++ ["tests"]) ++ ["test_" +:+ main.module_name self +:+ ".py"]) (root w) = false →
  ∃ w',
    main.write_to_file workspace package_name (self, w) = (Ok tt, (self, w')) ∧
    fstree.read_file ((W ++ [package_name]) ++ [main.module_name self +:+ ".py"]) (root w')
    = Some (joined (map (λ suite, main.content (main.function suite)) (main.functions self))) ∧
    fstree.read_file ((W ++ ["tests"]) ++ ["test_" +:+ main.module_name self +:+ ".py"]) (root w')
    = Some (joined (map (λ suite, main.content (main.test suite)) (main.functions self))).
Proof.
  intros HW Hpkg Hm HP HT HMo HTe.
  destruct (WriteFiles.write_to_file_run workspace package_name self w W
              HW Hpkg Hm HP HT HMo HTe) as (w' & Hrun & Hmod & Htest & _).
  exists w'. now repeat split.
Qed.

Lemma write_to_file_roundtrip_witness :
  ∃ w',
    main.write_to_file "workspace" "testpackage"
      (Examples.script_with [Examples.suite_of "a"; Examples.suite_of "b"], Examples.world1)
    = (Ok tt, (Examples.script_with [Examples.suite_of "a"; Examples.suite_of "b"], w')) ∧
    fstree.read_file ["home"; "workspace"; "testpackage"; "main.py"] (root w')
    = Some "def a():passdef b():pass" ∧
    fstree.read_file ["home"; "workspace"; "tests"; "test_main.py"] (root w')
    = Some "def test_a():passdef test_b():pass".
Proof.
  exact (write_to_file_roundtrip "workspace" "testpackage"
           (Examples.script_with [Examples.suite_of "a"; Examples.suite_of "b"])
           Examples.world1 ["home"; "workspace"]
           eq_refl eq_refl eq_refl eq_refl eq_refl eq_refl eq_refl).
Defined.

(** ** Scripts of a package *)

Module PackageFacts.
Import os_path fstree TreeFacts OsFacts PathFacts main.

(** A successful [add_function] appends one suite to the script and
    changes nothing else of it. *)
Lemma add_function_ok `{External} (function_goal script_package_name : string)
    (self self' : PythonFileScript) (w w' : World) :
  add_function function_goal script_package_name (self, w) = (Ok tt, (self', w')) →
  ∃ suite, self' = functions_append suite self.
Proof.
  unfold add_function, bind.
  destruct (generate_python_function function_goal (self, w)) as [[f|e] s1] eqn:Hf;
    [|discriminate].
  destruct (generate_python_test f script_package_name s1) as [[t|e] s2] eqn:Ht;
    [|discriminate].
  unfold set_self. intros [= <- <-]. exists {| function := f; test := t |}.
  assert (H1 : fst s1 = self).
  { unfold generate_python_function in Hf.
    match type of Hf with
    | generate_python_code ?m _ = _ =>
        pose proof (Pipeline.generate_python_code_self m self w) as Hs
    end.
    now rewrite Hf in Hs. }
  destruct s1 as [self1 w1]. simpl in H1. subst self1.
  unfold generate_python_test, bind, self_ in Ht. simpl in Ht.
  match type of Ht with
  | generate_python_code ?m _ = _ =>
      pose proof (Pipeline.generate_python_code_self m self w1) as Hs
  end.
  rewrite Ht in Hs. simpl in Hs. now rewrite Hs.
Qed.

Lemma read_file_not_dir (p : list string) (r : node) (c : string) :
  read_file p r = Some c → is_dir p r = false.
Proof.
  unfold read_file, is_dir. now destruct (lookup_node p r) as [[s|m]|].
Qed.

(** Writing the scripts of a list one after the other: every one goes to
    the same two files, so they end up holding the last one. *)
Lemma write_scripts (workspace package_name : string) (W : list string)
    (self : PythonPackage) (l : list PythonFileScript) :
  plain_name package_name = true →
  Forall (λ s, module_name s = "main") l →
  ∀ w, resolve (cwd w) workspace = Some W → ready W package_name (root w) →
  ∃ w',
    for_each l (λ script, (call script (write_to_file workspace package_name) ;;; ret tt)%py)
      (self, w)
    = (Ok tt, (self, w')) ∧
    ∀ s, last l = Some s →
      read_file ((W ++ [package_name]) ++ ["main.py"]) (root w')
      = Some (joined (map (λ suite, content (function suite)) (functions s))) ∧
      read_file ((W ++ ["tests"]) ++ ["test_main.py"]) (root w')
      = Some (joined (map (λ suite, content (test suite)) (functions s))).
Proof.
  intros Hpkg Hall. induction Hall as [|x l Hx _ IH]; intros w HW Hready.
  - exists w. split; [reflexivity | discriminate].
  - destruct Hready as (HP & HT & HMo & HTe).
    destruct (WriteFiles.write_to_file_run workspace package_name x w W HW Hpkg)
      as (w1 & Hrun & Hmod & Htest & Hcwd & HP1 & HT1);
      rewrite ?Hx; try assumption; try reflexivity.
    rewrite Hx in Hmod, Htest.
    destruct (IH w1) as (w' & Hloop & Hlast).
    { now rewrite Hcwd. }
    { repeat split; try assumption; eapply read_file_not_dir; eassumption. }
    exists w'. split.
    + cbn [for_each]. unfold bind at 1. unfold bind at 1. unfold call at 1.
      cbn [snd fst]. rewrite Hrun. exact Hloop.
    + intros s Hs. destruct l as [|y l].
      * injection Hs as <-. simpl in Hloop. injection Hloop as <-. now split.
      * apply Hlast. exact Hs.
Qed.

End PackageFacts.

(** C9. A script that [PythonPackage.add_function] appends has the module
    name "main" and holds exactly one suite.  So all scripts of a package
    built that way are written to the same module file and the same test
    file, and after [write_files] these hold the texts of the script
    appended last and nothing of the earlier ones. *)
Theorem scripts_overwrite_each_other `{External} :
  (∀ function_goal self w self' w',
     main.package_add_function function_goal (self, w) = (Ok tt, (self', w')) →
     ∃ script,
       main._scripts self' = main._scripts self ++ [script] ∧
       main.module_name script = "main" ∧
       length (main.functions script) = 1%nat) ∧
  (∀ self w W earlier last,
     main._scripts self = earlier ++ [last] →
     Forall (λ s, main.module_name s = "main") (main._scripts self) →
     os_path.resolve (cwd w) (main._workspace_directory self) = Some W →
     os_path.plain_name (main._package_name self) = true →
     ready W (main._package_name self) (root w) →
     (∀ s, s ∈ main._scripts self →
        os_path.join (main._workspace_directory self)
          [main._package_name self; main.module_name s +:+ ".py"]
        = os_path.join (main._workspace_directory self)
            [main._package_name self; "main.py"] ∧
        os_path.join (main._workspace_directory self)
          ["tests"; "test_" +:+ main.module_name s +:+ ".py"]
        = os_path.join (main._workspace_directory self) ["tests"; "test_main.py"]) ∧
     ∃ w',
       main.write_files (self, w) = (Ok tt, (self, w')) ∧
       fstree.read_file ((W ++ [main._package_name self]) ++ ["main.py"]) (root w')
       = Some (joined (map (λ suite, main.content (main.function suite))
                         (main.functions last))) ∧
       fstree.read_file ((W ++ ["tests"]) ++ ["test_main.py"]) (root w')
       = Some (joined (map (λ suite, main.content (main.test suite))
                         (main.functions last)))).
Proof.
  split.
  - intros function_goal self w self' w'.
    unfold main.package_add_function, bind, self_, call. cbn [fst snd].
    destruct (main.add_function _ _ _) as [[[]|e] [script w1]] eqn:Hadd; [|discriminate].
    unfold set_self. cbn [fst snd]. intros [= <- <-].
    destruct (PackageFacts.add_function_ok _ _ _ _ _ _ Hadd) as [suite ->].
    eexists. split; [reflexivity|]. split; reflexivity.
  - intros self w W earlier last Hscripts Hall HW Hpkg Hready. split.
    + intros s Hs. rewrite Forall_forall in Hall. now rewrite (Hall s Hs).
    + destruct (PackageFacts.write_scripts (main._workspace_directory self)
                  (main._package_name self) W self (main._scripts self)
                  Hpkg Hall w HW Hready) as (w' & Hloop & Hlast).
      exists w'. split; [exact Hloop|].
      apply Hlast. rewrite Hscripts. apply last_snoc.
Qed.

Lemma scripts_overwrite_each_other_witness :
  (∃ script,
     main._scripts
       (fst (snd (@main.package_add_function Examples.answers_twice Examples.goal0
                    (Examples.package0, Examples.world1))))
     = main._scripts Examples.package0 ++ [script] ∧
     main.module_name script = "main" ∧
     length (main.functions script) = 1%nat) ∧
  ∃ w',
    main.write_files (Examples.package2, Examples.world1)
    = (Ok tt, (Examples.package2, w')) ∧
    fstree.read_file ["home"; "workspace"; "testpackage"; "main.py"] (root w')
    = Some "def b():pass" ∧
    fstree.read_file ["home"; "workspace"; "tests"; "test_main.py"] (root w')
    = Some "def test_b():pass".
Proof.
  destruct (@scripts_overwrite_each_other Examples.answers_twice) as [Hadd Hwrite].
  split.
  - apply (Hadd Examples.goal0 Examples.package0 Examples.world1 _
             (snd (snd (@main.package_add_function Examples.answers_twice Examples.goal0
                          (Examples.package0, Examples.world1))))).
    vm_compute. reflexivity.
  - refine (proj2 (Hwrite Examples.package2 Examples.world1 ["home"; "workspace"]
                     [Examples.script_with [Examples.suite_of "a"]]
                     (Examples.script_with [Examples.suite_of "b"])
                     eq_refl _ eq_refl eq_refl _)).
    + repeat constructor.
    + repeat split; reflexivity.
Defined.

(** ** The time stamp is a plain name *)

Module TimeFacts.
Import os_path time PathFacts.

Lemma digit_tame (d : nat) (s : string) :
  (d < 10)%nat → all_tame (String (digit d) s) = all_tame s.
Proof.
  intros Hd.
  do 10 (destruct d as [|d]; [reflexivity|]). lia.
Qed.

Lemma decimal_go_tame (fuel n : nat) (acc : string) :
  all_tame acc = true → all_tame (decimal_go fuel n acc) = true.
Proof.
  revert n acc; induction fuel as [|fuel IH]; intros n acc Hacc; [exact Hacc|].
  cbn [decimal_go].
  assert (Hstep : all_tame (String (digit (n mod 10)) acc) = true).
  { rewrite digit_tame; [exact Hacc|]. apply Nat.mod_upper_bound. lia. }
  destruct (n / 10 =? 0)%nat; [exact Hstep | now apply IH].
Qed.

Lemma decimal_go_nonempty (fuel n : nat) (acc : string) :
  is_empty acc = false → is_empty (decimal_go fuel n acc) = false.
Proof.
  revert n acc; induction fuel as [|fuel IH]; intros n acc Hacc; [exact Hacc|].
  cbn [decimal_go]. destruct (n / 10 =? 0)%nat; [reflexivity | now apply IH].
Qed.

Lemma zeros_tame (k : nat) (s : string) :
  all_tame s = true → all_tame (zeros k s) = true.
Proof. induction k as [|k IH]; intros Hs; [exact Hs | simpl; now apply IH]. Qed.

Lemma zeros_nonempty (k : nat) (s : string) :
  is_empty s = false → is_empty (zeros k s) = false.
Proof. destruct k; [trivial | reflexivity]. Qed.

Lemma fmt_d_tame (k n : nat) : all_tame (fmt_d k n) = true.
Proof. unfold fmt_d. apply zeros_tame, decimal_go_tame. reflexivity. Qed.

Lemma fmt_d_nonempty (k n : nat) : is_empty (fmt_d k n) = false.
Proof.
  unfold fmt_d. apply zeros_nonempty. cbn [decimal_go].
  destruct (n / 10 =? 0)%nat; [reflexivity | now apply decimal_go_nonempty].
Qed.

Lemma strftime_plain (t : struct_time) : plain_name (strftime_Ymd_HMS t) = true.
Proof.
  unfold strftime_Ymd_HMS. apply all_tame_plain.
  - rewrite !all_tame_app, !fmt_d_tame. reflexivity.
  - apply is_empty_app, fmt_d_nonempty.
Qed.

End TimeFacts.

(** ** Backing up and laying out the workspace *)

Module InitFacts.
Import os_path fstree TreeFacts OsFacts PathFacts main.

Lemma makedirs_exists (name : string) (w : World) (p : list string) :
  resolve (cwd w) name = Some p → is_dir p (root w) = true →
  os.makedirs name true w = (Ok tt, w).
Proof.
  intros Hres Hd. unfold os.makedirs. rewrite Hres. unfold is_dir in Hd.
  now destruct (lookup_node p (root w)) as [[s|m]|].
Qed.

Lemma makedirs_new (name : string) (exist_ok : bool) (w : World) (p : list string)
    (r : node) :
  resolve (cwd w) name = Some p → lookup_node p (root w) = None →
  mkdirs p (root w) = Some r →
  os.makedirs name exist_ok w = (Ok tt, set_root r w).
Proof.
  intros Hres Hnone Hmk. unfold os.makedirs. now rewrite Hres, Hnone, Hmk.
Qed.

Lemma listdir_run (path : string) (w : World) (p : list string) (m : gmap string node) :
  resolve (cwd w) path = Some p → lookup_node p (root w) = Some (Dir m) →
  os.listdir path w = (Ok (map fst (map_to_list m)), w).
Proof. intros Hres Hd. unfold os.listdir. now rewrite Hres, Hd. Qed.

Lemma prefix_snoc_inv (q d : list string) (c : string) :
  q `prefix_of` d ++ [c] → q `prefix_of` d ∨ q = d ++ [c].
Proof.
  intros Hq.
  destruct (prefix_weak_total q d (d ++ [c]) Hq) as [H|H];
    [now apply prefix_app_r | now left |].
  destruct (decide (length q ≤ length d)%nat) as [Hle|Hgt].
  - left. apply prefix_length_eq in H; [subst; reflexivity | exact Hle].
  - right. apply prefix_length_eq; [exact Hq|]. rewrite length_app. simpl. lia.
Qed.

Lemma set_at_id (d : list string) (c : string) (x n : node) :
  lookup_node (d ++ [c]) n = Some x → set_at (d ++ [c]) (Some x) n = n.
Proof.
  revert n; induction d as [|y d IH]; intros n Hx.
  - destruct n as [s|m]; [discriminate|]. simpl in Hx |- *.
    destruct (m !! c) as [ch|] eqn:Hc; [|discriminate].
    injection Hx as ->. now rewrite insert_id.
  - destruct n as [s|m]; [discriminate|].
    change ((y :: d) ++ [c]) with (y :: (d ++ [c])) in *.
    rewrite set_at_deeper by (destruct d; discriminate).
    simpl in Hx. destruct (m !! y) as [ch|] eqn:Hy; [|discriminate].
    rewrite (IH ch Hx). now rewrite insert_id.
Qed.

Lemma set_root_same (w : World) : set_root (root w) w = w.
Proof. now destruct w. Qed.

(** [os.makedirs(name, exist_ok=True)] for an entry of an existing
    directory: the entry is kept if it is a directory and made if it is
    missing. *)
Lemma makedirs_entry (name : string) (w : World) (D : list string) (c : string)
    (mD mc : gmap string node) :
  resolve (cwd w) name = Some (D ++ [c]) →
  lookup_node D (root w) = Some (Dir mD) →
  (mD !! c = None ∧ mc = ∅) ∨ mD !! c = Some (Dir mc) →
  os.makedirs name true w
  = (Ok tt, set_root (set_at (D ++ [c]) (Some (Dir mc)) (root w)) w).
Proof.
  intros Hres HD [[Hc ->]|Hc].
  - apply (makedirs_new name true w (D ++ [c])); [exact Hres | |].
    + now rewrite (lookup_child D c _ mD HD).
    + now apply (mkdirs_child D c _ mD).
  - rewrite set_at_id by (now rewrite (lookup_child D c _ mD HD)).
    rewrite set_root_same. apply (makedirs_exists name w (D ++ [c]) Hres).
    unfold is_dir. now rewrite (lookup_child D c _ mD HD), Hc.
Qed.

(** A package directory laid out: the directory made if missing, and an
    empty [__init__.py] written into it. *)
Lemma init_dir_steps (name : string) (w : World) (D : list string) (c : string)
    (mD mc : gmap string node) :
  resolve (cwd w) name = Some (D ++ [c]) →
  plain_name "__init__.py" = true →
  lookup_node D (root w) = Some (Dir mD) →
  (mD !! c = None ∧ mc = ∅) ∨ mD !! c = Some (Dir mc) →
  (∀ m', mc !! "__init__.py" ≠ Some (Dir m')) →
  ∃ r1 r2,
    os.makedirs name true w = (Ok tt, set_root r1 w) ∧
    os.open_w (join name ["__init__.py"]) (set_root r1 w)
    = (Ok ((D ++ [c]) ++ ["__init__.py"]), set_root r2 w) ∧
    os.write ((D ++ [c]) ++ ["__init__.py"]) EmptyString (set_root r2 w)
    = (Ok tt, set_root r2 w) ∧
    lookup_node D r2
    = Some (Dir (<[c := Dir (<["__init__.py" := File EmptyString]> mc)]> mD)) ∧
    ∀ q, unrelated D q → lookup_node q r2 = lookup_node q (root w).
Proof.
  intros Hres Hinit HD Hc Hfree.
  set (r1 := set_at (D ++ [c]) (Some (Dir mc)) (root w)).
  set (r2 := set_at ((D ++ [c]) ++ ["__init__.py"]) (Some (File EmptyString)) r1).
  assert (H1 : lookup_node (D ++ [c]) r1 = Some (Dir mc))
    by apply (lookup_set_at_eq D c _ _ mD HD).
  assert (H2 : lookup_node ((D ++ [c]) ++ ["__init__.py"]) r2 = Some (File EmptyString))
    by apply (lookup_set_at_eq (D ++ [c]) "__init__.py" _ _ mc H1).
  exists r1, r2. split; [|split; [|split; [|split]]].
  - now apply (makedirs_entry name w D c mD mc).
  - apply (open_w_run _ (set_root r1 w) (D ++ [c]) "__init__.py").
    + now apply resolve_join_1.
    + unfold is_dir. simpl. now rewrite H1.
    + unfold is_dir. simpl. rewrite (lookup_child (D ++ [c]) _ _ mc H1).
      destruct (mc !! "__init__.py") as [[s|m']|] eqn:Hm; try reflexivity.
      now destruct (Hfree m').
  - rewrite (write_run _ EmptyString (set_root r2 w) EmptyString) by exact H2.
    simpl. unfold r2 at 1. now rewrite set_at_set_at.
  - unfold r2. rewrite <- (List.app_assoc D [c] ["__init__.py"]).
    rewrite lookup_set_at_below by discriminate.
    unfold r1. rewrite (lookup_set_at_parent D c _ _ mD HD). simpl.
    rewrite lookup_insert_eq, insert_insert_eq. reflexivity.
  - intros q Hq. unfold r2, r1.
    rewrite lookup_set_at_unrelated
      by (rewrite <- (List.app_assoc D [c] ["__init__.py"]); now apply unrelated_app_l).
    now rewrite lookup_set_at_unrelated by (now apply unrelated_app_l).
Qed.

Section Backup.

Variables (W BS : list string).
Hypothesis apart : unrelated W BS.

Lemma entry_apart (x y : string) : unrelated (W ++ [x]) (BS ++ [y]).
Proof.
  pose proof (unrelated_app_l W BS [x] apart) as H1.
  pose proof (unrelated_app_l BS W [y] (unrelated_sym _ _ apart)) as H2.
  split; intros Hpre.
  - destruct (prefix_snoc_inv _ _ _ Hpre) as [H|H].
    + now apply (proj1 H1).
    + apply app_inj_tail in H as [-> _]. now apply (proj1 apart).
  - destruct (prefix_snoc_inv _ _ _ Hpre) as [H|H].
    + now apply (proj1 H2).
    + apply app_inj_tail in H as [-> _]. now apply (proj1 apart).
Qed.

(** One entry of the workspace moved into the backup directory. *)
Lemma rename_run (src dst x : string) (w : World) (n : node)
    (mW mB : gmap string node) :
  resolve (cwd w) src = Some (W ++ [x]) →
  resolve (cwd w) dst = Some (BS ++ [x]) →
  lookup_node W (root w) = Some (Dir mW) → mW !! x = Some n →
  lookup_node BS (root w) = Some (Dir mB) → mB !! x = None →
  ∃ r,
    os.rename src dst w = (Ok tt, set_root r w) ∧
    lookup_node W r = Some (Dir (delete x mW)) ∧
    lookup_node BS r = Some (Dir (<[x := n]> mB)).
Proof.
  intros Hsrc Hdst HW Hx HB HBx.
  pose proof (entry_apart x x) as [Hsd Hds].
  exists (set_at (BS ++ [x]) (Some n) (set_at (W ++ [x]) None (root w))).
  split; [|split].
  - unfold os.rename. rewrite Hsrc, Hdst.
    rewrite (lookup_child W x _ mW HW), Hx.
    destruct (decide (W ++ [x] = BS ++ [x])) as [Heq|_].
    { destruct Hsd. now rewrite Heq. }
    destruct (decide (W ++ [x] `prefix_of` BS ++ [x])) as [Hpre|_]; [now destruct Hsd|].
    rewrite split_last_app, HB, (lookup_child BS x _ mB HB), HBx. reflexivity.
  - rewrite lookup_set_at_unrelated
      by (apply unrelated_app_l, unrelated_sym, apart).
    now rewrite (lookup_set_at_parent W x None _ mW HW).
  - apply (lookup_set_at_parent BS x (Some n)).
    rewrite lookup_set_at_unrelated by (apply unrelated_app_l, apart). exact HB.
Qed.

(** The loop of [init_workspace]: every entry ends up in the backup
    directory and the workspace is left empty. *)
Lemma backup_loop (ws bs : string) (w : World) (names : list string) :
  resolve (cwd w) ws = Some W → resolve (cwd w) bs = Some BS →
  NoDup names →
  ∀ (mW mB : gmap string node) (r : node),
    (∀ x, x ∈ names ↔ is_Some (mW !! x)) →
    (∀ x, x ∈ names → plain_name x = true) →
    mW ##ₘ mB →
    lookup_node W r = Some (Dir mW) → lookup_node BS r = Some (Dir mB) →
    ∃ r',
      for_each names (λ filename, os.rename (join ws [filename]) (join bs [filename]))
        (set_root r w)
      = (Ok tt, set_root r' w) ∧
      lookup_node W r' = Some (Dir ∅) ∧
      lookup_node BS r' = Some (Dir (mW ∪ mB)).
Proof.
  intros Hws Hbs Hnd. induction Hnd as [|x names Hx Hnd IH];
    intros mW mB r Hkeys Hplain Hdisj HW HB.
  - exists r. split; [reflexivity|].
    assert (HmW : mW = ∅).
    { apply map_empty. intros i. apply eq_None_not_Some. intros Hi.
      apply Hkeys in Hi. now apply not_elem_of_nil in Hi. }
    subst mW. split; [exact HW|]. now rewrite (left_id_L ∅ (∪)).
  - destruct (proj1 (Hkeys x) (list_elem_of_here _ _)) as [n Hn].
    assert (HBx : mB !! x = None) by (eapply map_disjoint_Some_l; eassumption).
    assert (Hpx : plain_name x = true) by (apply Hplain, list_elem_of_here).
    destruct (rename_run (join ws [x]) (join bs [x]) x (set_root r w) n mW mB)
      as (r1 & Hrun & HW1 & HB1); try assumption.
    { now apply resolve_join_1. }
    { now apply resolve_join_1. }
    destruct (IH (delete x mW) (<[x := n]> mB) r1) as (r' & Hloop & HW' & HB');
      try assumption.
    + intros y. split.
      * intros Hy. rewrite lookup_delete_ne by (intros ->; contradiction).
        apply Hkeys. now apply list_elem_of_further.
      * intros [v Hv]. destruct (decide (x = y)) as [->|Hne];
          [now rewrite lookup_delete_eq in Hv|].
        rewrite lookup_delete_ne in Hv by exact Hne.
        assert (Hy : y ∈ x :: names) by (apply Hkeys; eauto).
        apply elem_of_cons in Hy as [->|Hy]; [contradiction | exact Hy].
    + intros y Hy. apply Hplain. now apply list_elem_of_further.
    + apply map_disjoint_insert_r. split; [apply lookup_delete_eq|].
      now apply map_disjoint_delete_l.
    + exists r'. split; [|split; [exact HW'|]].
      * cbn [for_each]. erewrite bind_ok by exact Hrun.
        change (set_root r1 (set_root r w)) with (set_root r1 w). exact Hloop.
      * rewrite HB'. now rewrite (union_delete_insert mW mB x n Hn).
Qed.

End Backup.

End InitFacts.

(** C4. [init_workspace] on a workspace root that holds entries: every
    entry is moved into a directory made for this run below the backup
    root and named by the time stamp, and the workspace root is left
    holding the package directory and the test directory and nothing else,
    each with an empty [__init__.py].  The backup root must not lie inside
    the workspace, the stamped directory must not exist yet, and no regular
    file may stand where the backup root is to be. *)
Theorem init_workspace_backs_up
    (workspace_directory backup_directory package_name : string)
    (w : World) (W B : list string) (m0 : gmap string node) :
  os_path.resolve (cwd w) workspace_directory = Some W →
  os_path.resolve (cwd w) backup_directory = Some B →
  os_path.plain_name package_name = true →
  fstree.lookup_node W (root w) = Some (Dir m0) →
  m0 ≠ ∅ →
  (∀ name, is_Some (m0 !! name) → os_path.plain_name name = true) →
  fstree.lookup_node (B ++ [time.strftime_Ymd_HMS (now w)]) (root w) = None →
  (∀ q s, q `prefix_of` B → fstree.lookup_node q (root w) ≠ Some (File s)) →
  ¬ W `prefix_of` B ++ [time.strftime_Ymd_HMS (now w)] →
  ∃ w',
    main.init_workspace
      (main.new_package workspace_directory backup_directory package_name, w)
    = (Ok tt, (main.new_package workspace_directory backup_directory package_name, w')) ∧
    fstree.lookup_node (B ++ [time.strftime_Ymd_HMS (now w)]) (root w') = Some (Dir m0) ∧
    fstree.lookup_node W (root w')
    = Some (Dir (<["tests" := Dir {[ "__init__.py" := File EmptyString ]}]>
                   {[ package_name := Dir {[ "__init__.py" := File EmptyString ]} ]})).
Proof.
  intros HW HB Hpkg HlW Hne Hnames Hfresh Hfree Hout.
  set (stamp := time.strftime_Ymd_HMS (now w)) in *.
  set (BS := B ++ [stamp]) in *.
  set (self := main.new_package workspace_directory backup_directory package_name).
  assert (Hstamp : os_path.plain_name stamp = true) by apply TimeFacts.strftime_plain.
  assert (Hapart : fstree.unrelated W BS).
  { split; [exact Hout|]. intros Hpre.
    destruct (TreeFacts.lookup_prefix_is_Some BS W (root w) Hpre) as [x Hx];
      [eauto | congruence]. }
  destruct (TreeFacts.mkdirs_is_Some BS (root w)) as [r1 Hr1].
  { intros q s Hq. destruct (InitFacts.prefix_snoc_inv _ _ _ Hq) as [H|H];
      [now apply Hfree | subst q; fold BS; congruence]. }
  assert (HBS1 : fstree.lookup_node BS r1 = Some (Dir ∅))
    by (apply (TreeFacts.mkdirs_lookup_new BS (root w)); auto).
  assert (HW1 : fstree.lookup_node W r1 = Some (Dir m0)).
  { rewrite (TreeFacts.mkdirs_lookup_unrelated BS W _ _ Hr1);
      [exact HlW | now apply TreeFacts.unrelated_sym]. }
  set (names := map fst (map_to_list m0)).
  assert (Hnd : NoDup names) by apply NoDup_fst_map_to_list.
  assert (Hkeys : ∀ x, x ∈ names ↔ is_Some (m0 !! x)).
  { intros x. unfold names. rewrite list_elem_of_fmap. split.
    - intros ([k v] & -> & Hkv). apply elem_of_map_to_list in Hkv. eauto.
    - intros [v Hv]. exists (x, v). split; [reflexivity|].
      now apply elem_of_map_to_list. }
  assert (HresBS : os_path.resolve (cwd w) (os_path.join backup_directory [stamp]) = Some BS)
    by now apply PathFacts.resolve_join_1.
  destruct (InitFacts.backup_loop W BS Hapart workspace_directory
              (os_path.join backup_directory [stamp]) w names HW HresBS Hnd
              m0 ∅ r1 Hkeys) as (r2 & Hloop & HW2 & HBS2); try assumption.
  { intros x Hx. now apply Hnames, Hkeys. }
  { apply map_disjoint_empty_r. }
  rewrite (right_id_L ∅ (∪)) in HBS2.
  destruct (InitFacts.init_dir_steps (os_path.join workspace_directory [package_name])
              (set_root r2 w) W package_name ∅ ∅)
    as (r3 & r4 & Hmk1 & Hopen1 & Hwrite1 & HW4 & Hother4); try assumption.
  { now apply PathFacts.resolve_join_1. }
  { reflexivity. }
  { left. split; [apply lookup_empty | reflexivity]. }
  { intros m'. now rewrite lookup_empty. }
  set (mc := if decide (package_name = "tests")
             then <["__init__.py" := File EmptyString]> (∅ : gmap string node)
             else ∅).
  destruct (InitFacts.init_dir_steps (os_path.join workspace_directory ["tests"])
              (set_root r4 w) W "tests"
              (<[package_name := Dir (<["__init__.py" := File EmptyString]> ∅)]> ∅) mc)
    as (r5 & r6 & Hmk2 & Hopen2 & Hwrite2 & HW6 & Hother6); try assumption.
  { now apply PathFacts.resolve_join_1. }
  { reflexivity. }
  { unfold mc. destruct (decide (package_name = "tests")) as [->|Hpt].
    - right. apply lookup_insert_eq.
    - left. split; [|reflexivity]. rewrite lookup_insert_ne by exact Hpt.
      apply lookup_empty. }
  { intros m'. unfold mc. destruct (decide (package_name = "tests")).
    - now rewrite lookup_insert_eq.
    - now rewrite lookup_empty. }
  assert (Hnames_eq : names = map fst (map_to_list m0)) by reflexivity.
  assert (Hnonempty : names ≠ []).
  { rewrite Hnames_eq. intros Hnil%fmap_nil_inv. now apply map_to_list_empty_iff in Hnil. }
  clearbody names.
  exists (set_root r6 w). split; [|split].
  - unfold main.init_workspace.
    rewrite (OsFacts.bind_ok self_ _ (self, w) (self, w) self eq_refl).
    erewrite OsFacts.bind_io_ok; cycle 1.
    { apply (InitFacts.makedirs_exists _ w W HW).
      unfold fstree.is_dir. now rewrite HlW. }
    erewrite OsFacts.bind_io_ok; cycle 1.
    { apply (InitFacts.listdir_run _ w W m0 HW HlW). }
    rewrite <- Hnames_eq.
    destruct names as [|e es]; [congruence|].
    erewrite (OsFacts.bind_ok _ _ (self, w) (self, set_root r2 w) tt); cycle 1.
    { erewrite OsFacts.bind_io_ok by reflexivity.
      erewrite OsFacts.bind_io_ok; cycle 1.
      { apply (InitFacts.makedirs_new _ false w BS r1 HresBS Hfresh Hr1). }
      erewrite OsFacts.bind_io_ok; cycle 1.
      { apply (InitFacts.listdir_run _ (set_root r1 w) W m0 HW HW1). }
      rewrite <- Hnames_eq.
      rewrite (OsFacts.for_each_io (e :: es)
                 (λ filename,
                    os.rename (os_path.join workspace_directory [filename])
                      (os_path.join (os_path.join backup_directory [stamp]) [filename]))).
      rewrite Hloop. reflexivity. }
    erewrite OsFacts.bind_io_ok by exact Hmk1.
    erewrite OsFacts.bind_io_ok by exact Hopen1.
    erewrite OsFacts.bind_io_ok by exact Hwrite1.
    erewrite OsFacts.bind_io_ok by exact Hmk2.
    erewrite OsFacts.bind_io_ok by exact Hopen2.
    unfold io. cbn [fst snd]. rewrite Hwrite2. reflexivity.
  - simpl. rewrite Hother6 by exact Hapart. simpl.
    rewrite Hother4 by exact Hapart. exact HBS2.
  - simpl. rewrite HW6. do 2 f_equal. unfold mc.
    rewrite !insert_empty.
    destruct (decide (package_name = "tests")) as [->|Hpt]; [|reflexivity].
    rewrite <- insert_empty. now rewrite insert_insert_eq, insert_empty.
Qed.

Lemma init_workspace_backs_up_witness :
  ∃ w',
    main.init_workspace (Examples.package0, Examples.world0)
    = (Ok tt, (Examples.package0, w')) ∧
    fstree.lookup_node ["home"; "backup"; "20240307-090500"] (root w')
    = Some (Dir Examples.entries0) ∧
    fstree.lookup_node ["home"; "workspace"] (root w')
    = Some (Dir (<["tests" := Dir {[ "__init__.py" := File EmptyString ]}]>
                   {[ "testpackage" := Dir {[ "__init__.py" := File EmptyString ]} ]})).
Proof.
  assert (Hne : Examples.entries0 ≠ ∅) by apply insert_non_empty.
  assert (Hnames : ∀ name, is_Some (Examples.entries0 !! name) →
                           os_path.plain_name name = true).
  { intros name [v Hv]. unfold Examples.entries0 in Hv.
    destruct (decide (name = "notes.txt")) as [->|H1]; [reflexivity|].
    destruct (decide (name = "testpackage")) as [->|H2]; [reflexivity|].
    rewrite lookup_insert_ne in Hv by congruence.
    rewrite lookup_singleton_ne in Hv by congruence. discriminate. }
  assert (Hfree : ∀ q s, q `prefix_of` ["home"; "backup"] →
                         fstree.lookup_node q (root Examples.world0) ≠ Some (File s)).
  { intros q s [k Hk].
    destruct q as [|a [|b [|c q]]]; simpl in Hk; try discriminate.
    - injection Hk as <- _. vm_compute. discriminate.
    - injection Hk as <- <- _. vm_compute. discriminate. }
  assert (Hout : ¬ ["home"; "workspace"] `prefix_of`
                   ["home"; "backup"] ++ [time.strftime_Ymd_HMS (now Examples.world0)]).
  { intros [k Hk]. simpl in Hk. discriminate. }
  exact (init_workspace_backs_up "workspace" "backup" "testpackage" Examples.world0
           ["home"; "workspace"] ["home"; "backup"] Examples.entries0
           eq_refl eq_refl eq_refl eq_refl Hne Hnames eq_refl Hfree Hout).
Defined.

(** * Further properties *)

(** ** Effects of the generation steps *)

Module PipelineMore.
Import main.

Lemma complete_effects `{External} self msgs model temp w r w1 :
  client.complete self msgs model temp w = (r, w1) →
  api_calls w1 = S (api_calls w) ∧ now w1 = now w.
Proof.
  unfold client.complete, try_except, bind, client.create, client.logger_info,
    client.logger_error, modify, ret, raise.
  destruct (chat_completions_create _ _) as [a|e]; simpl.
  - intros [= <- <-]. now split.
  - destruct (is_Exception e); simpl; intros [= <- <-]; now split.
Qed.

(** What a call of [generate_python_code] can change: the module log may
    grow, one request is counted, and nothing else moves. *)
Lemma generate_python_code_world `{External} msgs self w r self' w' :
  generate_python_code msgs (self, w) = (r, (self', w')) →
  self' = self ∧ root w' = root w ∧ cwd w' = cwd w ∧ now w' = now w ∧
  api_calls w' = S (api_calls w) ∧ main_log w `prefix_of` main_log w'.
Proof.
  destruct (client.complete (openai_client self) msgs "gpt-4" (1 # 2) w)
    as [[response|e] w1] eqn:Hc;
    destruct (Pipeline.complete_frame _ _ _ _ _ _ _ Hc) as (Hlog & Hroot & Hcwd);
    destruct (complete_effects _ _ _ _ _ _ _ Hc) as (Hcalls & Hnow).
  - rewrite (Pipeline.generate_python_code_answered _ _ _ _ _ Hc).
    destruct (utils.extract_single_function_name _) as [[n|]|e].
    + intros [= <- <- <-]. simpl. rewrite Hlog. repeat split; try assumption.
      now apply prefix_app_r.
    + intros [= <- <- <-]. rewrite Hlog. now repeat split.
    + destruct (is_Exception e); intros [= <- <- <-]; simpl; rewrite Hlog;
        repeat split; try assumption; try reflexivity.
      now apply prefix_app_r.
  - rewrite (Pipeline.generate_python_code_failed _ _ _ _ _ Hc).
    intros [= <- <- <-]. rewrite Hlog. now repeat split.
Qed.

Lemma generate_python_function_world `{External} goal self w r self' w' :
  generate_python_function goal (self, w) = (r, (self', w')) →
  self' = self ∧ root w' = root w ∧ cwd w' = cwd w ∧ now w' = now w ∧
  api_calls w' = S (api_calls w) ∧ main_log w `prefix_of` main_log w'.
Proof. apply generate_python_code_world. Qed.

Lemma generate_python_test_world `{External} f pkg self w r self' w' :
  generate_python_test f pkg (self, w) = (r, (self', w')) →
  self' = self ∧ root w' = root w ∧ cwd w' = cwd w ∧ now w' = now w ∧
  api_calls w' = S (api_calls w) ∧ main_log w `prefix_of` main_log w'.
Proof.
  unfold generate_python_test, bind, self_. simpl. apply generate_python_code_world.
Qed.

End PipelineMore.



(** X3. A failure of the provider is fatal to [generate_python_code]: the
    provider's exception is raised unchanged, no name extraction takes
    place and the module logger receives nothing. *)
Theorem provider_error_propagates `{External} (instructions_input : MessagesStack)
    (self : main.PythonFileScript) (w : World) (e : exn) :
  chat_completions_create (api_calls w)
    {| req_model := "gpt-4"; req_messages := instructions_input;
       req_temperature := 1 # 2 |} = Raise e →
  fst (main.generate_python_code instructions_input (self, w)) = Raise e ∧
  main_log (snd (snd (main.generate_python_code instructions_input (self, w))))
  = main_log w.
Proof.
  intros Hcreate.
  destruct (client.complete (main.openai_client self) instructions_input "gpt-4" (1 # 2) w)
    as [r w1] eqn:Hc.
  assert (Hr : r = Raise e).
  { revert Hc. unfold client.complete, try_except, bind, client.create. rewrite Hcreate.
    simpl. destruct (is_Exception e); simpl; now intros [= <- _]. }
  subst r. rewrite (Pipeline.generate_python_code_failed _ _ _ _ _ Hc). simpl.
  split; [reflexivity|]. apply (Pipeline.complete_frame _ _ _ _ _ _ _ Hc).
Qed.

Lemma provider_error_propagates_witness :
  fst (@main.generate_python_code MoreExamples.answers_never Examples.msgs0
         (Examples.script0, Examples.world0))
  = Raise (Exn APIError "Connection error.") ∧
  main_log (snd (snd (@main.generate_python_code MoreExamples.answers_never Examples.msgs0
                        (Examples.script0, Examples.world0))))
  = main_log Examples.world0.
Proof.
  exact (@provider_error_propagates MoreExamples.answers_never Examples.msgs0
           Examples.script0 Examples.world0 (Exn APIError "Connection error.") eq_refl).
Defined.



(** X5. When the first generation step raises, [PythonFileScript.add_function]
    raises the same exception at once: the request for the test is never
    sent (one request is counted, not two) and the script is unchanged. *)
Theorem add_function_stops_at_first_failure `{External}
    (function_goal script_package_name : string)
    (self : main.PythonFileScript) (w : World)
    (s1 : main.PythonFileScript * World) (e : exn) :
  main.generate_python_function function_goal (self, w) = (Raise e, s1) →
  main.add_function function_goal script_package_name (self, w) = (Raise e, s1) ∧
  fst s1 = self ∧
  api_calls (snd s1) = S (api_calls w).
Proof.
  intros Hf. destruct s1 as [self1 w1].
  destruct (PipelineMore.generate_python_function_world _ _ _ _ _ _ Hf)
    as (-> & _ & _ & _ & Ha1 & _).
  split; [|split; [reflexivity | exact Ha1]].
  unfold main.add_function, bind. now rewrite Hf.
Qed.

Lemma add_function_stops_at_first_failure_witness :
  fst (@main.add_function MoreExamples.answers_never Examples.goal0 "testpackage"
         (Examples.script0, Examples.world0))
  = Raise (Exn APIError "Connection error.") ∧
  api_calls (snd (snd (@main.add_function MoreExamples.answers_never Examples.goal0
                         "testpackage" (Examples.script0, Examples.world0))))
  = 1%nat.
Proof.
  destruct (@add_function_stops_at_first_failure MoreExamples.answers_never
              Examples.goal0 "testpackage" Examples.script0 Examples.world0
              (@main.generate_python_function MoreExamples.answers_never Examples.goal0
                 (Examples.script0, Examples.world0)).2
              (Exn APIError "Connection error.") eq_refl) as (Hrun & _ & Hcalls).
  rewrite Hrun. split; [reflexivity | exact Hcalls].
Defined.



(** ** More on [extract_substring] *)

Module ExtractMore.
Import PyStr PyStrFacts Occ OccFacts utils.

#[local] Arguments append !s1 s2 : simpl nomatch.

Lemma slice_is_part (s : string) (a b : Z) :
  ∃ pre post, s = pre +:+ slice s a b +:+ post.
Proof.
  unfold slice.
  set (k := Z.to_nat (slice_index (len s) a)).
  set (n := Z.to_nat (slice_index (len s) b - slice_index (len s) a)).
  exists (take_str k s), (drop_str n (drop_str k s)).
  now rewrite (take_drop n (drop_str k s)), (take_drop k s).
Qed.

(** Two ways of cutting one string: the shorter head is a head of the
    longer. *)
Lemma app_head_split (a b c d : string) :
  a +:+ b = c +:+ d → (String.length c ≤ String.length a)%nat →
  ∃ r, a = c +:+ r ∧ d = r +:+ b.
Proof.
  revert a; induction c as [|x c IH]; intros a Heq Hlen; simpl in *.
  - exists a. now split.
  - destruct a as [|y a]; simpl in *; [lia|].
    injection Heq as -> Heq.
    destruct (IH a Heq) as (r & -> & ->); [lia|]. now exists r.
Qed.

Lemma occurs_at_app_l (sub a b : string) (j : nat) :
  occurs_at sub a j → occurs_at sub (a +:+ b) j.
Proof.
  intros (pre & post & -> & Hlen). exists pre, (post +:+ b).
  split; [now rewrite !app_assoc | exact Hlen].
Qed.

(** An occurrence that ends inside the head of a string is an occurrence
    in the head. *)
Lemma occurs_at_within (sub a b : string) (j : nat) :
  occurs_at sub (a +:+ b) j → (j + String.length sub ≤ String.length a)%nat →
  occurs_at sub a j.
Proof.
  intros (pre & post & Heq & Hlen) Hle.
  rewrite <- app_assoc in Heq.
  destruct (app_head_split a b (pre +:+ sub) post Heq) as (r & -> & _).
  { rewrite length_app. lia. }
  exists pre, r. split; [apply app_assoc | exact Hlen].
Qed.

Lemma occurs_at_shift (sub pre s : string) (j : nat) :
  occurs_at sub (pre +:+ s) (String.length pre + j) ↔ occurs_at sub s j.
Proof.
  rewrite <- (occurs_at_drop sub (pre +:+ s) (String.length pre) j)
    by (rewrite length_app; lia).
  now rewrite drop_app.
Qed.

Lemma first_from_exists (sub s : string) (i : nat) :
  occurs_at sub s i → ∃ i0, first_from sub s 0 i0.
Proof.
  intros Hocc. destruct (find_cases s sub 0) as [[_ Hnone] | (i0 & _ & Hi0)].
  - destruct (Hnone i); [lia | exact Hocc].
  - now exists i0.
Qed.

Lemma slice_empty (s : string) (a : Z) : slice s a a = EmptyString.
Proof. unfold slice. now rewrite Z.sub_diag. Qed.

End ExtractMore.

(** X7. Whatever the text and the markers, what [extract_substring]
    returns is a part of the text in one piece: it never returns a
    character the text does not hold at that place. *)
Theorem extract_substring_is_part (s start_marker end_marker : string) :
  ∃ pre post, s = pre +:+ utils.extract_substring s start_marker end_marker +:+ post.
Proof.
  unfold utils.extract_substring.
  destruct (_ && _).
  - apply ExtractMore.slice_is_part.
  - exists EmptyString, EmptyString. now rewrite PyStrFacts.app_empty_r.
Qed.

(** X8. Fencing and extracting is a round trip: from a text that holds
    [code] between the two markers, [extract_substring] gives [code] back,
    whatever stands before and after, as long as the start marker does not
    already occur in what stands before and the end marker does not occur
    in [code] (also not across the border to the closing marker). *)
Theorem extract_substring_recovers_fenced
    (before start_marker code end_marker after : string) :
  Occ.first_from start_marker (before +:+ start_marker) 0 (String.length before) →
  Occ.first_from end_marker (code +:+ end_marker) 0 (String.length code) →
  utils.extract_substring
    (before +:+ start_marker +:+ code +:+ end_marker +:+ after)
    start_marker end_marker
  = code.
Proof.
  intros (_ & _ & Hsm) (_ & _ & Hem).
  set (s := before +:+ start_marker +:+ code +:+ end_marker +:+ after).
  assert (Hs1 : s = (before +:+ start_marker) +:+ (code +:+ end_marker +:+ after))
    by (unfold s; now rewrite !PyStrFacts.app_assoc).
  assert (Hs2 : s = (before +:+ start_marker) +:+ code +:+ (end_marker +:+ after))
    by (unfold s; now rewrite !PyStrFacts.app_assoc).
  assert (Hk : String.length (before +:+ start_marker)
               = (String.length before + String.length start_marker)%nat)
    by apply PyStrFacts.length_app.
  assert (H1 : Occ.first_from start_marker s 0 (String.length before)).
  { split; [lia|]. split.
    - exists before, (code +:+ end_marker +:+ after). now split.
    - intros j _ Hj Hocc. apply (Hsm j); [lia | exact Hj |].
      rewrite Hs1 in Hocc. apply ExtractMore.occurs_at_within in Hocc; [exact Hocc|].
      rewrite Hk. lia. }
  assert (H2 : Occ.first_from end_marker s
                 (String.length before + String.length start_marker)
                 (String.length before + String.length start_marker + String.length code)).
  { split; [lia|]. split.
    - exists ((before +:+ start_marker) +:+ code), after. split.
      + unfold s. now rewrite !PyStrFacts.app_assoc.
      + rewrite PyStrFacts.length_app, Hk. reflexivity.
    - intros j Hj1 Hj2 Hocc.
      apply (Hem (j - (String.length before + String.length start_marker))%nat);
        [lia | lia |].
      rewrite Hs1 in Hocc.
      replace j with (String.length (before +:+ start_marker)
                      + (j - (String.length before + String.length start_marker)))%nat
        in Hocc by (rewrite Hk; lia).
      apply ExtractMore.occurs_at_shift in Hocc.
      rewrite <- PyStrFacts.app_assoc in Hocc.
      apply ExtractMore.occurs_at_within in Hocc; [exact Hocc|].
      apply OccFacts.occurs_at_bound in Hocc.
      rewrite !PyStrFacts.length_app in Hocc |- *. lia. }
  rewrite (ExtractSubstring.found s start_marker end_marker _ _ H1 H2).
  rewrite <- Hk, Hs2.
  apply (OccFacts.slice_between (before +:+ start_marker) code (end_marker +:+ after)).
Qed.

Lemma extract_substring_recovers_fenced_witness :
  utils.extract_substring
    (MoreExamples.chat_before +:+ "```python" +:+ MoreExamples.chat_code +:+ "```"
     +:+ MoreExamples.chat_after)
    "```python" "```"
  = MoreExamples.chat_code.
Proof.
  apply (extract_substring_recovers_fenced MoreExamples.chat_before "```python"
           MoreExamples.chat_code "```" MoreExamples.chat_after);
    apply first_fromb_correct; vm_compute; reflexivity.
Defined.

(** X9. With an empty end marker the result is empty as soon as the start
    marker occurs: the end is found right where the search for it
    begins. *)
Theorem empty_end_marker_gives_nothing (s start_marker : string) (i : nat) :
  Occ.occurs_at start_marker s i →
  utils.extract_substring s start_marker EmptyString = EmptyString.
Proof.
  intros Hocc. destruct (ExtractMore.first_from_exists _ _ _ Hocc) as [i0 Hi0].
  assert (Hb : (i0 + String.length start_marker ≤ String.length s)%nat).
  { destruct Hi0 as (_ & H & _). now apply OccFacts.occurs_at_bound in H. }
  assert (Hend : Occ.first_from EmptyString s (i0 + String.length start_marker)
                   (i0 + String.length start_marker)).
  { split; [lia|]. split; [|intros j Hj1 Hj2; lia].
    apply ExtractSubstring.occurs_at_iff. split; [exact Hb|].
    now destruct (PyStr.drop_str _ s). }
  rewrite (ExtractSubstring.found s start_marker EmptyString _ _ Hi0 Hend).
  apply ExtractMore.slice_empty.
Qed.

Lemma empty_end_marker_gives_nothing_witness :
  utils.extract_substring Examples.fenced_x "```python" EmptyString = EmptyString.
Proof.
  apply (empty_end_marker_gives_nothing Examples.fenced_x "```python" 0).
  exists EmptyString, (PyStr.nl +:+ "x=1" +:+ PyStr.nl +:+ "```"). split; reflexivity.
Defined.

(** ** More on the name collector *)

Module CollectorMore.
Import utils AstSpec AstShape.

Lemma defs_of_node (t : ast) :
  ∃ hd, function_defs t = hd ++ flat_map function_defs (children t).
Proof. destruct t; simpl; [now exists [name] | now exists [] ..]. Qed.

Lemma defs_of_child (c t : ast) :
  c ∈ children t → ∃ pre post, function_defs t = pre ++ function_defs c ++ post.
Proof.
  intros Hc. destruct (defs_of_node t) as [hd ->].
  apply list_elem_of_split in Hc as (l1 & l2 & ->).
  exists (hd ++ flat_map function_defs l1), (flat_map function_defs l2).
  rewrite flat_map_app. simpl. now rewrite <- !List.app_assoc.
Qed.

(** The definitions of a part of a tree are, as one run, among the
    definitions of the tree. *)
Lemma defs_within (sub t : ast) :
  within sub t → ∃ pre post, function_defs t = pre ++ function_defs sub ++ post.
Proof.
  induction 1 as [t | sub c t Hc _ (pre & post & IH)].
  - exists [], []. simpl. now rewrite app_nil_r.
  - destruct (defs_of_child c t Hc) as (pre' & post' & ->). rewrite IH.
    exists (pre' ++ pre), (post ++ post'). now rewrite <- !List.app_assoc.
Qed.

End CollectorMore.

(** X10. The one definition need not be at the top level: when a source
    parses and exactly one function definition is collected, the name
    returned is that of the [FunctionDef] node wherever it sits in the
    tree, for instance a method in a class body. *)
Theorem definition_anywhere_is_found `{External} (code : string) (tree : ast)
    (name : string) (body : list ast) :
  ast_parse code = Ok tree →
  AstShape.within (FunctionDef name body) tree →
  length (AstSpec.function_defs tree) = 1%nat →
  utils.extract_single_function_name code = Ok (Some name).
Proof.
  intros Hparse Hin Hlen. rewrite (Collector.extract_parsed code tree Hparse).
  destruct (CollectorMore.defs_within _ _ Hin) as (pre & post & Hdefs).
  rewrite Hdefs in Hlen |- *. simpl in Hlen |- *.
  destruct pre as [|x pre]; simpl in *.
  - destruct (flat_map AstSpec.function_defs body ++ post); [reflexivity | discriminate].
  - rewrite length_app in Hlen. simpl in Hlen. lia.
Qed.

Lemma definition_anywhere_is_found_witness :
  @utils.extract_single_function_name MoreExamples.parses_more MoreExamples.src_method
  = Ok (Some "run").
Proof.
  apply (@definition_anywhere_is_found MoreExamples.parses_more MoreExamples.src_method
           MoreExamples.tree_method "run"
           [Examples.leaf "arguments"; Examples.leaf "Pass"]).
  - reflexivity.
  - apply (AstShape.within_child _ (ClassDef "A" [Examples.def_ "run"]));
      [apply list_elem_of_here|].
    apply (AstShape.within_child _ (Examples.def_ "run")); [apply list_elem_of_here|].
    apply AstShape.within_here.
  - reflexivity.
Defined.

(** X11. A function definition that holds another one in its body, at any
    depth, is never accepted: both are collected, so the result is [None]
    even though the source has a single top-level function. *)
Theorem inner_definition_rejects `{External} (code : string) (tree : ast)
    (name inner_name : string) (body inner_body : list ast) (c : ast) :
  ast_parse code = Ok tree →
  AstShape.within (FunctionDef name body) tree →
  c ∈ body → AstShape.within (FunctionDef inner_name inner_body) c →
  utils.extract_single_function_name code = Ok None.
Proof.
  intros Hparse Hout Hc Hin. rewrite (Collector.extract_parsed code tree Hparse).
  destruct (CollectorMore.defs_within _ _ Hout) as (pre & post & ->).
  assert (Hbody : AstShape.within (FunctionDef inner_name inner_body)
                    (FunctionDef name body))
    by (now apply (AstShape.within_child _ c)).
  destruct (CollectorMore.defs_within _ _ Hbody) as (pre' & post' & Hdefs).
  assert (Hlen : (2 ≤ length (AstSpec.function_defs (FunctionDef name body)))%nat).
  { destruct (CollectorMore.defs_within _ _ Hin) as (p & q & Hc').
    destruct (CollectorMore.defs_of_child c (FunctionDef name body) Hc) as (p' & q' & _).
    simpl. apply list_elem_of_split in Hc as (l1 & l2 & ->).
    rewrite flat_map_app. simpl. rewrite Hc'. simpl.
    rewrite !length_app. simpl. rewrite !length_app. simpl. lia. }
  destruct (pre ++ AstSpec.function_defs (FunctionDef name body) ++ post)
    as [|a [|b l]] eqn:E; try reflexivity.
  apply (f_equal length) in E. rewrite !length_app in E. simpl in E. simpl in Hlen. lia.
Qed.

Lemma inner_definition_rejects_witness :
  @utils.extract_single_function_name MoreExamples.parses_more MoreExamples.src_inner
  = Ok None.
Proof.
  apply (@inner_definition_rejects MoreExamples.parses_more MoreExamples.src_inner
           MoreExamples.tree_inner "outer" "helper"
           MoreExamples.outer_body
           [Examples.leaf "arguments"; Examples.leaf "Pass"]
           (Examples.def_ "helper")).
  - reflexivity.
  - apply (AstShape.within_child _ (FunctionDef "outer" MoreExamples.outer_body));
      [apply list_elem_of_here | apply AstShape.within_here].
  - apply list_elem_of_further, list_elem_of_here.
  - apply AstShape.within_here.
Defined.

(** ** More on [write_to_file] *)

Module WriteMore.
Import os_path fstree TreeFacts OsFacts PathFacts main.

(** The module file written: the state between the two halves of
    [write_to_file]. *)
Lemma module_file_written {B} (workspace package_name : string) (self : PythonFileScript)
    (w : World) (W : list string) (k : Method PythonFileScript B) :
  resolve (cwd w) workspace = Some W →
  plain_name package_name = true →
  has_sep (module_name self) = false →
  is_dir (W ++ [package_name]) (root w) = true →
  is_dir ((W ++ [package_name]) ++ [module_name self +:+ ".py"]) (root w) = false →
  (script_file <- io (os.open_w (join workspace [package_name; module_name self +:+ ".py"])) ;;
   for_each (functions self)
     (λ function_set, io (os.write script_file (content (function function_set)))) ;;;
   k)%py (self, w)
  = k (self,
       set_root
         (set_at ((W ++ [package_name]) ++ [module_name self +:+ ".py"])
            (Some (File (joined (map (λ suite, content (function suite)) (functions self)))))
            (root w)) w).
Proof.
  intros HW Hpkg Hm HP HMo.
  erewrite bind_io_ok; cycle 1.
  { apply (open_w_run _ w (W ++ [package_name]) (module_name self +:+ ".py"));
      [|exact HP | exact HMo].
    now apply WriteFiles.module_path. }
  erewrite bind_ok; cycle 1.
  { rewrite for_each_io.
    rewrite (write_all (λ suite, content (function suite)) (functions self)
               (W ++ [package_name]) (module_name self +:+ ".py") (root w) w
               EmptyString HP).
    reflexivity. }
  reflexivity.
Qed.

(** The world a successful [write_to_file] leaves. *)
Lemma write_to_file_world (workspace package_name : string) (self : PythonFileScript)
    (w : World) (W : list string) :
  resolve (cwd w) workspace = Some W →
  plain_name package_name = true →
  has_sep (module_name self) = false →
  is_dir (W ++ [package_name]) (root w) = true →
  is_dir (W ++ ["tests"]) (root w) = true →
  is_dir ((W ++ [package_name]) ++ [module_name self +:+ ".py"]) (root w) = false →
  is_dir ((W ++ ["tests"]) ++ ["test_" +:+ module_name self +:+ ".py"]) (root w) = false →
  write_to_file workspace package_name (self, w)
  = (Ok tt,
     (self,
      set_root
        (set_at ((W ++ ["tests"]) ++ ["test_" +:+ module_name self +:+ ".py"])
           (Some (File (joined (map (λ suite, content (test suite)) (functions self)))))
           (set_at ((W ++ [package_name]) ++ [module_name self +:+ ".py"])
              (Some (File (joined (map (λ suite, content (function suite))
                                     (functions self)))))
              (root w))) w)).
Proof.
  intros HW Hpkg Hm HP HT HMo HTe.
  pose proof (WriteFiles.module_test_unrelated W package_name (module_name self)) as Hun.
  unfold write_to_file.
  rewrite (bind_ok self_ _ (self, w) (self, w) self eq_refl).
  rewrite (module_file_written workspace package_name self w W _ HW Hpkg Hm HP HMo).
  set (r2 := set_at _ _ (root w)).
  assert (HT2 : is_dir (W ++ ["tests"]) r2 = true).
  { apply is_dir_set_at; [|exact HT].
    apply prefix_longer. rewrite !length_app. simpl. lia. }
  assert (HTe2 : is_dir ((W ++ ["tests"]) ++ ["test_" +:+ module_name self +:+ ".py"]) r2
                 = false).
  { unfold is_dir, r2. rewrite lookup_set_at_unrelated by exact Hun. exact HTe. }
  erewrite bind_io_ok; cycle 1.
  { apply (open_w_run _ (set_root r2 w) (W ++ ["tests"])
             ("test_" +:+ module_name self +:+ ".py")); [|exact HT2 | exact HTe2].
    now apply WriteFiles.test_path. }
  rewrite for_each_io.
  change (set_root ?r (set_root r2 w)) with (set_root r w).
  change (root (set_root r2 w)) with r2.
  rewrite (write_all (λ suite, content (test suite)) (functions self)
             (W ++ ["tests"]) ("test_" +:+ module_name self +:+ ".py") r2 w
             EmptyString HT2).
  reflexivity.
Qed.

End WriteMore.



(** X13. [write_to_file] is not all-or-nothing: with the package directory
    in place and the test directory missing it raises [FileNotFoundError]
    for the test file after the module file has been written in full. *)
Theorem write_to_file_can_stop_halfway (workspace package_name : string)
    (self : main.PythonFileScript) (w : World) (W : list string) :
  os_path.resolve (cwd w) workspace = Some W →
  os_path.plain_name package_name = true →
  os_path.has_sep (main.module_name self) = false →
  fstree.is_dir (W ++ [package_name]) (root w) = true →
  fstree.is_dir ((W ++ [package_name]) ++ [main.module_name self +:+ ".py"]) (root w) = false →
  fstree.lookup_node (W ++ ["tests"]) (root w) = None →
  ∃ w',
    main.write_to_file workspace package_name (self, w)
    = (Raise (Exn FileNotFoundError
                (os_path.join workspace
                   ["tests"; "test_" +:+ main.module_name self +:+ ".py"])),
       (self, w')) ∧
    fstree.read_file ((W ++ [package_name]) ++ [main.module_name self +:+ ".py"]) (root w')
    = Some (joined (map (λ suite, main.content (main.function suite)) (main.functions self))).
Proof.
  intros HW Hpkg Hm HP HMo HT.
  eexists. split.
  - unfold main.write_to_file.
    rewrite (OsFacts.bind_ok self_ _ (self, w) (self, w) self eq_refl).
    rewrite (WriteMore.module_file_written workspace package_name self w W _
               HW Hpkg Hm HP HMo).
    unfold bind, io. cbn [fst snd]. unfold os.open_w. cbn [cwd set_root root].
    rewrite (WriteFiles.test_path _ _ _ W HW Hm), TreeFacts.split_last_app.
    rewrite TreeFacts.lookup_set_at_unrelated, HT; [reflexivity|].
    split.
    + apply OsFacts.prefix_longer. rewrite !length_app. simpl. lia.
    + intros Hpre. destruct (InitFacts.prefix_snoc_inv _ _ _ Hpre) as [H|H].
      * apply prefix_length_eq in H; [|rewrite !length_app; simpl; lia].
        unfold fstree.is_dir in HP. rewrite <- H, HT in HP. discriminate.
      * apply (f_equal length) in H. rewrite !length_app in H. simpl in H. lia.
  - unfold fstree.read_file. cbn [root set_root].
    unfold fstree.is_dir in HP.
    destruct (fstree.lookup_node (W ++ [package_name]) (root w)) as [[c|m]|] eqn:HlP;
      try discriminate.
    now rewrite (TreeFacts.lookup_set_at_eq _ _ _ _ m HlP).
Qed.

Lemma write_to_file_can_stop_halfway_witness :
  ∃ w',
    main.write_to_file "workspace" "testpackage"
      (Examples.script_with [Examples.suite_of "a"],
       MoreExamples.world_with MoreExamples.tree_no_tests)
    = (Raise (Exn FileNotFoundError "workspace/tests/test_main.py"),
       (Examples.script_with [Examples.suite_of "a"], w')) ∧
    fstree.read_file ["home"; "workspace"; "testpackage"; "main.py"] (root w')
    = Some "def a():pass".
Proof.
  exact (write_to_file_can_stop_halfway "workspace" "testpackage"
           (Examples.script_with [Examples.suite_of "a"])
           (MoreExamples.world_with MoreExamples.tree_no_tests) ["home"; "workspace"]
           eq_refl eq_refl eq_refl eq_refl eq_refl eq_refl).
Defined.

(** X14. A successful [write_to_file] changes the module file and the test
    file and nothing else: every place of the tree that is neither of the
    two files nor a directory above them reads as before, and no request
    is sent and nothing is logged. *)
Theorem write_to_file_touches_two_files (workspace package_name : string)
    (self : main.PythonFileScript) (w : World) (W : list string) :
  os_path.resolve (cwd w) workspace = Some W →
  os_path.plain_name package_name = true →
  os_path.has_sep (main.module_name self) = false →
  fstree.is_dir (W ++ [package_name]) (root w) = true →
  fstree.is_dir (W ++ ["tests"]) (root w) = true →
  fstree.is_dir ((W ++ [package_name]) ++ [main.module_name self +:+ ".py"]) (root w) = false →
  fstree.is_dir ((W ++ ["tests"]) ++ ["test_" +:+ main.module_name self +:+ ".py"]) (root w) = false →
  ∃ w',
    main.write_to_file workspace package_name (self, w) = (Ok tt, (self, w')) ∧
    (∀ q,
       fstree.unrelated ((W ++ [package_name]) ++ [main.module_name self +:+ ".py"]) q →
       fstree.unrelated ((W ++ ["tests"]) ++ ["test_" +:+ main.module_name self +:+ ".py"]) q →
       fstree.lookup_node q (root w') = fstree.lookup_node q (root w)) ∧
    main_log w' = main_log w ∧ openai_log w' = openai_log w ∧
    api_calls w' = api_calls w.
Proof.
  intros HW Hpkg Hm HP HT HMo HTe.
  eexists. split.
  - apply (WriteMore.write_to_file_world workspace package_name self w W);
      assumption.
  - split; [|now repeat split].
    intros q Hq1 Hq2. cbn [root set_root].
    now rewrite !TreeFacts.lookup_set_at_unrelated.
Qed.

Lemma write_to_file_touches_two_files_witness :
  ∃ w',
    main.write_to_file "workspace" "testpackage"
      (Examples.script_with [Examples.suite_of "a"], Examples.world1)
    = (Ok tt, (Examples.script_with [Examples.suite_of "a"], w')) ∧
    fstree.read_file ["home"; "workspace"; "testpackage"; "__init__.py"] (root w')
    = Some EmptyString.
Proof.
  destruct (write_to_file_touches_two_files "workspace" "testpackage"
              (Examples.script_with [Examples.suite_of "a"]) Examples.world1
              ["home"; "workspace"] eq_refl eq_refl eq_refl eq_refl eq_refl eq_refl eq_refl)
    as (w' & Hrun & Hframe & _).
  exists w'. split; [exact Hrun|].
  unfold fstree.read_file.
  rewrite (Hframe ["home"; "workspace"; "testpackage"; "__init__.py"]).
  - reflexivity.
  - apply OsFacts.unrelated_same_length; [reflexivity | discriminate].
  - apply OsFacts.unrelated_same_length; [reflexivity | discriminate].
Defined.

(** ** More on [init_workspace] *)

Module InitMore.
Import os_path fstree TreeFacts OsFacts PathFacts main.

(** The first step of [init_workspace] on a workspace that is missing or
    empty: afterwards it is there and empty, and nothing beside it has
    changed. *)
Lemma workspace_made (workspace : string) (w : World) (W : list string) :
  resolve (cwd w) workspace = Some W →
  lookup_node W (root w) = None ∨ lookup_node W (root w) = Some (Dir ∅) →
  (∀ q s, q `prefix_of` W → lookup_node q (root w) ≠ Some (File s)) →
  ∃ r0,
    os.makedirs workspace true w = (Ok tt, set_root r0 w) ∧
    lookup_node W r0 = Some (Dir ∅) ∧
    ∀ q, unrelated W q → lookup_node q r0 = lookup_node q (root w).
Proof.
  intros HW [Hnone|Hempty] Hfree.
  - destruct (mkdirs_is_Some W (root w) Hfree) as [r0 Hr0].
    exists r0. split; [|split].
    + now apply (InitFacts.makedirs_new workspace true w W).
    + apply (mkdirs_lookup_new W (root w)); auto.
    + intros q Hq. now apply (mkdirs_lookup_unrelated W q (root w)).
  - exists (root w). split; [|split; [exact Hempty | reflexivity]].
    rewrite InitFacts.set_root_same.
    apply (InitFacts.makedirs_exists workspace w W HW).
    unfold is_dir. now rewrite Hempty.
Qed.

(** The layout [init_workspace] leaves makes the tree ready for a script. *)
Lemma layout_ready (W : list string) (package_name : string) (r : node) :
  lookup_node W r
  = Some (Dir (<["tests" := Dir {[ "__init__.py" := File EmptyString ]}]>
                 {[ package_name := Dir {[ "__init__.py" := File EmptyString ]} ]})) →
  ready W package_name r.
Proof.
  intros HW.
  assert (Hp : lookup_node (W ++ [package_name]) r
               = Some (Dir {[ "__init__.py" := File EmptyString ]})).
  { rewrite (lookup_child W _ _ _ HW).
    destruct (decide (package_name = "tests")) as [->|Hne].
    - apply lookup_insert_eq.
    - rewrite lookup_insert_ne by congruence. apply lookup_singleton_eq. }
  assert (Ht : lookup_node (W ++ ["tests"]) r
               = Some (Dir {[ "__init__.py" := File EmptyString ]})).
  { rewrite (lookup_child W _ _ _ HW). apply lookup_insert_eq. }
  unfold ready, is_dir. rewrite Hp, Ht.
  rewrite (lookup_child _ "main.py" _ _ Hp), (lookup_child _ "test_main.py" _ _ Ht).
  rewrite !lookup_singleton_ne by discriminate. now repeat split.
Qed.

End InitMore.

(** X15. On a workspace root that is missing or empty [init_workspace]
    makes no backup: it creates the root if need be and lays out the
    package and test directories, each with an empty [__init__.py].
    Nothing outside the workspace changes, whatever the backup root is, and
    the tree is then fit for [write_to_file]. *)
Theorem init_workspace_fresh (workspace_directory backup_directory package_name : string)
    (w : World) (W : list string) :
  os_path.resolve (cwd w) workspace_directory = Some W →
  os_path.plain_name package_name = true →
  fstree.lookup_node W (root w) = None ∨ fstree.lookup_node W (root w) = Some (Dir ∅) →
  (∀ q s, q `prefix_of` W → fstree.lookup_node q (root w) ≠ Some (File s)) →
  ∃ w',
    main.init_workspace
      (main.new_package workspace_directory backup_directory package_name, w)
    = (Ok tt, (main.new_package workspace_directory backup_directory package_name, w')) ∧
    fstree.lookup_node W (root w')
    = Some (Dir (<["tests" := Dir {[ "__init__.py" := File EmptyString ]}]>
                   {[ package_name := Dir {[ "__init__.py" := File EmptyString ]} ]})) ∧
    ready W package_name (root w') ∧
    cwd w' = cwd w ∧
    ∀ q, fstree.unrelated W q →
         fstree.lookup_node q (root w') = fstree.lookup_node q (root w).
Proof.
  intros HW Hpkg Hstate Hfree.
  set (self := main.new_package workspace_directory backup_directory package_name).
  destruct (InitMore.workspace_made workspace_directory w W HW Hstate Hfree)
    as (r0 & Hmk0 & HW0 & Hother0).
  destruct (InitFacts.init_dir_steps (os_path.join workspace_directory [package_name])
              (set_root r0 w) W package_name ∅ ∅)
    as (r3 & r4 & Hmk1 & Hopen1 & Hwrite1 & HW4 & Hother4); try assumption.
  { now apply PathFacts.resolve_join_1. }
  { reflexivity. }
  { left. split; [apply lookup_empty | reflexivity]. }
  { intros m'. now rewrite lookup_empty. }
  set (mc := if decide (package_name = "tests")
             then <["__init__.py" := File EmptyString]> (∅ : gmap string node)
             else ∅).
  destruct (InitFacts.init_dir_steps (os_path.join workspace_directory ["tests"])
              (set_root r4 w) W "tests"
              (<[package_name := Dir (<["__init__.py" := File EmptyString]> ∅)]> ∅) mc)
    as (r5 & r6 & Hmk2 & Hopen2 & Hwrite2 & HW6 & Hother6); try assumption.
  { now apply PathFacts.resolve_join_1. }
  { reflexivity. }
  { unfold mc. destruct (decide (package_name = "tests")) as [->|Hpt].
    - right. apply lookup_insert_eq.
    - left. split; [|reflexivity]. rewrite lookup_insert_ne by exact Hpt.
      apply lookup_empty. }
  { intros m'. unfold mc. destruct (decide (package_name = "tests")).
    - now rewrite lookup_insert_eq.
    - now rewrite lookup_empty. }
  assert (Hlayout : fstree.lookup_node W r6
            = Some (Dir (<["tests" := Dir {[ "__init__.py" := File EmptyString ]}]>
                           {[ package_name := Dir {[ "__init__.py" := File EmptyString ]} ]}))).
  { rewrite HW6. do 2 f_equal. unfold mc. rewrite !insert_empty.
    destruct (decide (package_name = "tests")) as [->|Hpt]; [|reflexivity].
    rewrite <- insert_empty. now rewrite insert_insert_eq, insert_empty. }
  exists (set_root r6 w). split; [|split; [exact Hlayout|split; [|split]]].
  - unfold main.init_workspace.
    rewrite (OsFacts.bind_ok self_ _ (self, w) (self, w) self eq_refl).
    erewrite OsFacts.bind_io_ok by exact Hmk0.
    erewrite OsFacts.bind_io_ok; cycle 1.
    { apply (InitFacts.listdir_run _ (set_root r0 w) W ∅ HW HW0). }
    rewrite map_to_list_empty. cbn [map].
    rewrite (OsFacts.bind_ok (ret tt) _ (self, set_root r0 w) (self, set_root r0 w) tt eq_refl).
    erewrite OsFacts.bind_io_ok by exact Hmk1.
    erewrite OsFacts.bind_io_ok by exact Hopen1.
    erewrite OsFacts.bind_io_ok by exact Hwrite1.
    erewrite OsFacts.bind_io_ok by exact Hmk2.
    erewrite OsFacts.bind_io_ok by exact Hopen2.
    unfold io. cbn [fst snd]. rewrite Hwrite2. reflexivity.
  - now apply InitMore.layout_ready.
  - reflexivity.
  - intros q Hq. cbn [root set_root].
    rewrite Hother6 by exact Hq. cbn [root set_root].
    rewrite Hother4 by exact Hq. cbn [root set_root]. now apply Hother0.
Qed.

Lemma init_workspace_fresh_witness :
  ∃ w',
    main.init_workspace
      (Examples.package0, MoreExamples.world_with MoreExamples.tree_none)
    = (Ok tt, (Examples.package0, w')) ∧
    fstree.read_file ["home"; "workspace"; "tests"; "__init__.py"] (root w')
    = Some EmptyString ∧
    fstree.lookup_node ["home"; "backup"] (root w') = None ∧
    fstree.read_file ["home"; "other.txt"] (root w') = Some "mine".
Proof.
  destruct (init_workspace_fresh "workspace" "backup" "testpackage"
              (MoreExamples.world_with MoreExamples.tree_none) ["home"; "workspace"]
              eq_refl eq_refl (or_introl eq_refl))
    as (w' & Hrun & Hlayout & _ & _ & Hframe).
  { intros q s [k Hk].
    destruct q as [|a [|b [|c q]]]; simpl in Hk; try discriminate.
    - injection Hk as <- _. vm_compute. discriminate.
    - injection Hk as <- <- _. vm_compute. discriminate. }
  exists w'. split; [exact Hrun|]. split; [|split].
  - unfold fstree.read_file.
    change ["home"; "workspace"; "tests"; "__init__.py"]
      with (["home"; "workspace"] ++ ["tests"; "__init__.py"]).
    rewrite TreeFacts.lookup_app, Hlayout. reflexivity.
  - rewrite (Hframe ["home"; "backup"]); [reflexivity|].
    apply OsFacts.unrelated_same_length; [reflexivity | discriminate].
  - unfold fstree.read_file. rewrite (Hframe ["home"; "other.txt"]); [reflexivity|].
    apply OsFacts.unrelated_same_length; [reflexivity | discriminate].
Defined.

(** X16. When the directory named by the current time stamp is already
    there below the backup root, as on a second run within the same
    second, [init_workspace] raises [FileExistsError] before anything is
    moved: the world is exactly as it was. *)
Theorem init_workspace_same_second
    (workspace_directory backup_directory package_name : string)
    (w : World) (W B : list string) (m0 : gmap string node) :
  os_path.resolve (cwd w) workspace_directory = Some W →
  os_path.resolve (cwd w) backup_directory = Some B →
  fstree.lookup_node W (root w) = Some (Dir m0) →
  m0 ≠ ∅ →
  is_Some (fstree.lookup_node (B ++ [time.strftime_Ymd_HMS (now w)]) (root w)) →
  main.init_workspace
    (main.new_package workspace_directory backup_directory package_name, w)
  = (Raise (Exn FileExistsError
              (os_path.join backup_directory [time.strftime_Ymd_HMS (now w)])),
     (main.new_package workspace_directory backup_directory package_name, w)).
Proof.
  intros HW HB HlW Hne [n Hn].
  set (self := main.new_package workspace_directory backup_directory package_name).
  unfold main.init_workspace.
  rewrite (OsFacts.bind_ok self_ _ (self, w) (self, w) self eq_refl).
  erewrite OsFacts.bind_io_ok; cycle 1.
  { apply (InitFacts.makedirs_exists _ w W HW). unfold fstree.is_dir. now rewrite HlW. }
  erewrite OsFacts.bind_io_ok; cycle 1.
  { apply (InitFacts.listdir_run _ w W m0 HW HlW). }
  destruct (map fst (map_to_list m0)) as [|x l] eqn:Hnames.
  { apply fmap_nil_inv, map_to_list_empty_iff in Hnames. contradiction. }
  unfold bind at 1. unfold bind at 1. unfold io at 1. cbn [fst snd].
  unfold time.strftime at 1. unfold bind at 1. unfold io at 1. cbn [fst snd].
  unfold os.makedirs at 1.
  change (main._backup_directory self) with backup_directory.
  rewrite (PathFacts.resolve_join_1 (cwd w) backup_directory _ B HB
             (TimeFacts.strftime_plain (now w))).
  rewrite Hn. destruct n; reflexivity.
Qed.

Lemma init_workspace_same_second_witness :
  main.init_workspace
    (Examples.package0, MoreExamples.world_with MoreExamples.tree_taken)
  = (Raise (Exn FileExistsError "backup/20240307-090500"),
     (Examples.package0, MoreExamples.world_with MoreExamples.tree_taken)).
Proof.
  refine (init_workspace_same_second "workspace" "backup" "testpackage"
            (MoreExamples.world_with MoreExamples.tree_taken)
            ["home"; "workspace"] ["home"; "backup"] Examples.entries0
            eq_refl eq_refl eq_refl _ _).
  - apply insert_non_empty.
  - exists (Dir ∅). reflexivity.
Defined.

(** ** Running the tests *)

(** X17. [execute_tests] never looks at the exit status of the test run
    nor at its error stream: two runs that agree on the output stream and
    on what they did to the world give the same result and the same log,
    so a failing suite is not told apart from a passing one. *)
Theorem execute_tests_ignores_exit_status (P1 P2 : main_tests.Subprocess)
    (self : main.PythonPackage) (w : World) :
  main_tests.same_output P1 P2 →
  @main_tests.execute_tests P1 (self, w) = @main_tests.execute_tests P2 (self, w).
Proof.
  intros [Hdec Hcom]. unfold main_tests.execute_tests, bind.
  destruct (main.write_files (self, w)) as [[[]|e] [self1 w1]]; [|reflexivity].
  unfold main._logger_info, self_, io, modify. cbn [fst snd].
  match goal with
  | |- context [@main_tests.communicate P1 ?cmd ?dir ?w0] =>
      specialize (Hcom cmd dir w0);
      destruct (@main_tests.communicate P1 cmd dir w0) as [[c1|e1] w2];
      destruct (@main_tests.communicate P2 cmd dir w0) as [[c2|e2] w3];
      try contradiction; destruct Hcom as [Hout <-]
  end.
  - unfold of_result. rewrite Hout, Hdec. reflexivity.
  - now subst e2.
Qed.

Lemma execute_tests_ignores_exit_status_witness :
  @main_tests.execute_tests (MoreExamples.pytest_run 0 EmptyString)
    (Examples.package2, Examples.world1)
  = @main_tests.execute_tests (MoreExamples.pytest_run 1 "1 failed")
      (Examples.package2, Examples.world1).
Proof.
  apply (execute_tests_ignores_exit_status (MoreExamples.pytest_run 0 EmptyString)
           (MoreExamples.pytest_run 1 "1 failed") Examples.package2 Examples.world1).
  split; [reflexivity|]. intros cmd dir w. simpl. now split.
Defined.

(** ** From the provider's answers to the files *)

Module Session.
Import main.

Lemma complete_ok_inv `{External} self msgs model temp w response w1 :
  client.complete self msgs model temp w = (Ok response, w1) →
  chat_completions_create (api_calls w)
    {| req_model := model; req_messages := msgs; req_temperature := temp |}
  = Ok response.
Proof.
  unfold client.complete, try_except, bind, client.create, client.logger_info,
    client.logger_error, modify, ret, raise.
  destruct (chat_completions_create _ _) as [a|e]; simpl.
  - now intros [= <- _].
  - destruct (is_Exception e); simpl; discriminate.
Qed.

(** A function that [generate_python_code] returns holds, as its content,
    what [extract_substring] cut out of the provider's answer. *)
Lemma generate_python_code_ok_inv `{External} msgs self w f s :
  generate_python_code msgs (self, w) = (Ok f, s) →
  ∃ response,
    chat_completions_create (api_calls w)
      {| req_model := "gpt-4"; req_messages := msgs; req_temperature := 1 # 2 |}
    = Ok response ∧
    content f = utils.extract_substring response "```python" "```".
Proof.
  intros Hgen.
  destruct (client.complete (openai_client self) msgs "gpt-4" (1 # 2) w)
    as [[response|e] w1] eqn:Hc.
  - exists response. split; [exact (complete_ok_inv _ _ _ _ _ _ _ Hc)|].
    rewrite (Pipeline.generate_python_code_answered _ _ _ _ _ Hc) in Hgen.
    destruct (utils.extract_single_function_name _) as [[n|]|e].
    + now injection Hgen as <- _.
    + discriminate.
    + destruct (is_Exception e); [|discriminate]. now injection Hgen as <- _.
  - rewrite (Pipeline.generate_python_code_failed _ _ _ _ _ Hc) in Hgen. discriminate.
Qed.

End Session.

(** X18. What is generated is what is written.  After a successful
    [PythonPackage.add_function] on a package that holds no script yet, in
    a workspace laid out by [init_workspace], [write_files] succeeds and
    the module file holds exactly the part [extract_substring] cuts out of
    the provider's first answer, and the test file the part cut out of its
    second answer. *)
Theorem generated_code_reaches_files `{External}
    (function_goal workspace_directory backup_directory package_name : string)
    (w w' : World) (W : list string) (self' : main.PythonPackage) :
  os_path.resolve (cwd w) workspace_directory = Some W →
  os_path.plain_name package_name = true →
  ready W package_name (root w) →
  main.package_add_function function_goal
    (main.new_package workspace_directory backup_directory package_name, w)
  = (Ok tt, (self', w')) →
  ∃ request1 request2 answer1 answer2 w'',
    chat_completions_create (api_calls w) request1 = Ok answer1 ∧
    chat_completions_create (S (api_calls w)) request2 = Ok answer2 ∧
    main.write_files (self', w') = (Ok tt, (self', w'')) ∧
    fstree.read_file ((W ++ [package_name]) ++ ["main.py"]) (root w'')
    = Some (utils.extract_substring answer1 "```python" "```") ∧
    fstree.read_file ((W ++ ["tests"]) ++ ["test_main.py"]) (root w'')
    = Some (utils.extract_substring answer2 "```python" "```").
Proof.
  intros HW Hpkg Hready.
  unfold main.package_add_function, bind, self_, call. cbn [fst snd].
  destruct (main.add_function _ _ _) as [[[]|e] [script w1]] eqn:Hadd; [|discriminate].
  unfold set_self. cbn [fst snd]. intros [= <- <-].
  revert Hadd. unfold main.add_function, bind.
  destruct (main.generate_python_function _ _) as [[f|e1] [self1 w2]] eqn:Hf;
    [|discriminate].
  destruct (PipelineMore.generate_python_function_world _ _ _ _ _ _ Hf)
    as (-> & Hr1 & Hc1 & _ & Ha1 & _).
  destruct (main.generate_python_test _ _ _) as [[t|e2] [self2 w3]] eqn:Ht;
    [|discriminate].
  destruct (PipelineMore.generate_python_test_world _ _ _ _ _ _ _ Ht)
    as (-> & Hr2 & Hc2 & _ & _ & _).
  unfold set_self. cbn [fst snd]. intros [= <- <-].
  destruct (Session.generate_python_code_ok_inv _ _ _ _ _ Hf) as (answer1 & Hq1 & Hcont1).
  unfold main.generate_python_test, bind, self_ in Ht. cbn [fst snd] in Ht.
  destruct (Session.generate_python_code_ok_inv _ _ _ _ _ Ht) as (answer2 & Hq2 & Hcont2).
  rewrite Ha1 in Hq2.
  set (script := main.functions_append {| main.function := f; main.test := t |} _).
  set (self' := main.scripts_append script _).
  destruct (PackageFacts.write_scripts workspace_directory package_name W self' [script]
              Hpkg) with (w := w3) as (w'' & Hloop & Hlast).
  { repeat constructor. }
  { now rewrite Hc2, Hc1. }
  { now rewrite Hr2, Hr1. }
  destruct (Hlast script eq_refl) as [Hmod Htest].
  eexists _, _, answer1, answer2, w''.
  split; [exact Hq1|]. split; [exact Hq2|]. split; [exact Hloop|].
  split.
  - rewrite Hmod. simpl. unfold joined. simpl.
    now rewrite PyStrFacts.app_empty_r, Hcont1.
  - rewrite Htest. simpl. unfold joined. simpl.
    now rewrite PyStrFacts.app_empty_r, Hcont2.
Qed.

Lemma generated_code_reaches_files_witness :
  ∃ w'',
    main.write_files
      (snd (@main.package_add_function Examples.answers_twice Examples.goal0
              (Examples.package0, Examples.world1)))
    = (Ok tt,
       (fst (snd (@main.package_add_function Examples.answers_twice Examples.goal0
                    (Examples.package0, Examples.world1))), w'')) ∧
    fstree.read_file ["home"; "workspace"; "testpackage"; "main.py"] (root w'')
    = Some Examples.src_def_foo ∧
    fstree.read_file ["home"; "workspace"; "tests"; "test_main.py"] (root w'')
    = Some Examples.src_def_test_foo.
Proof.
  destruct (@generated_code_reaches_files Examples.answers_twice Examples.goal0
              "workspace" "backup" "testpackage" Examples.world1
              (snd (snd (@main.package_add_function Examples.answers_twice Examples.goal0
                           (Examples.package0, Examples.world1))))
              ["home"; "workspace"]
              (fst (snd (@main.package_add_function Examples.answers_twice Examples.goal0
                           (Examples.package0, Examples.world1))))
              eq_refl eq_refl)
    as (q1 & q2 & a1 & a2 & w'' & Hq1 & Hq2 & Hrun & Hmod & Htest).
  { repeat split; reflexivity. }
  { vm_compute. reflexivity. }
  exists w''. split; [exact Hrun|].
  simpl in Hq1, Hq2. injection Hq1 as <-. injection Hq2 as <-.
  split; [exact Hmod | exact Htest].
Defined.

(** X19. The sentinel stands in for exceptions of class [Exception] only:
    an exception of the name extraction that does not derive from
    [Exception], a [KeyboardInterrupt] say, leaves [generate_python_code]
    unchanged, with nothing logged and no name substituted. *)
Theorem only_exceptions_are_swallowed `{External} (msgs : MessagesStack)
    (self : main.PythonFileScript) (w : World) (response : string) (w1 : World) (e : exn) :
  client.complete (main.openai_client self) msgs "gpt-4" (1 # 2) w = (Ok response, w1) →
  ast_parse (utils.extract_substring response "```python" "```") = Raise e →
  is_Exception e = false →
  main.generate_python_code msgs (self, w) = (Raise e, (self, w1)).
Proof.
  intros Hc Hparse He.
  rewrite (Pipeline.generate_python_code_answered _ _ _ _ _ Hc).
  unfold utils.extract_single_function_name. now rewrite Hparse, He.
Qed.

Lemma only_exceptions_are_swallowed_witness :
  fst (@main.generate_python_code MoreExamples.parse_interrupted Examples.msgs0
         (Examples.script0, Examples.world0))
  = Raise (Exn KeyboardInterrupt EmptyString).
Proof.
  rewrite (@only_exceptions_are_swallowed MoreExamples.parse_interrupted Examples.msgs0
             Examples.script0 Examples.world0
             (Examples.fence Examples.src_def_foo)
             (snd (@client.complete MoreExamples.parse_interrupted Examples.wrapper0
                     Examples.msgs0 "gpt-4" (1 # 2) Examples.world0))
             (Exn KeyboardInterrupt EmptyString) eq_refl eq_refl eq_refl).
  reflexivity.
Defined.
